(** * Passport Analysis API: [handle_get_analysis]

    A shallow embedding of [api/passport/api.py].  The request handler is
    written in a small state-and-exception monad over the process state
    (the module-level [MODEL_ENDPOINTS] dict, standard output, the log and
    the trace of outbound HTTP calls); Python's [str.split], [str.strip],
    [dict.get] and the [requests]/[eth_utils] calls are modelled next to
    it. *)

From Stdlib Require Import String Ascii List ZArith NArith Bool Lia.
Import ListNotations.
Open Scope string_scope.
Set Warnings "-register-all".

(** ** Python strings

    A [str] is modelled as a [string] whose characters are the code
    points 0..255. *)

Module PyStr.

(** [str.isspace] on one code point, restricted to 0..255: TAB..CR,
    FS..US, SPACE, NEL and NBSP. *)
Definition isspace (c : ascii) : bool :=
  let n := N_of_ascii c in
  ((9 <=? n) && (n <=? 13) || (28 <=? n) && (n <=? 32)
   || (n =? 133) || (n =? 160))%N.

(** [s.lstrip()] *)
Fixpoint lstrip (s : string) : string :=
  match s with
  | EmptyString => EmptyString
  | String c s' => if isspace c then lstrip s' else s
  end.

(** [s.rstrip()] *)
Fixpoint rstrip (s : string) : string :=
  match s with
  | EmptyString => EmptyString
  | String c s' =>
      match rstrip s' with
      | EmptyString => if isspace c then EmptyString else String c EmptyString
      | r => String c r
      end
  end.

(** [s.strip()] *)
Definition strip (s : string) : string := rstrip (lstrip s).

(** [s.split(sep)] for a one-character separator: the pieces between
    the occurrences of [sep], empty pieces included. *)
Fixpoint split (sep : ascii) (s : string) : list string :=
  match s with
  | EmptyString => [EmptyString]
  | String c s' =>
      if Ascii.eqb c sep then EmptyString :: split sep s'
      else match split sep s' with
           | piece :: rest => String c piece :: rest
           | [] => [String c EmptyString]
           end
  end.

(** [sep.join(xs)] *)
Fixpoint join (sep : string) (xs : list string) : string :=
  match xs with
  | [] => EmptyString
  | [x] => x
  | x :: rest => x ++ sep ++ join sep rest
  end.

Lemma split_nonempty (sep : ascii) (s : string) : split sep s <> [].
Proof.
  induction s as [|c s IH]; simpl; [discriminate|].
  destruct (Ascii.eqb c sep); [discriminate|].
  destruct (split sep s); discriminate.
Qed.

Example split_empty : split "," "" = [""].
Proof. reflexivity. Qed.

Example split_pair : split "," "ethereum, nft" = ["ethereum"; " nft"].
Proof. reflexivity. Qed.

Example split_comma : split "," "," = [""; ""].
Proof. reflexivity. Qed.

Example strip_inner : strip "  a b  " = "a b".
Proof. reflexivity. Qed.

Example strip_blank : strip " " = "".
Proof. reflexivity. Qed.

End PyStr.

(** ** Keccak-256

    [eth_utils.to_checksum_address] derives the letter case of an address
    from the Keccak-256 digest of its lower-case hex text.  Lanes are
    64-bit integers held in [Z]; the state is the list of the 25 lanes,
    lane (x, y) at index [x + 5 * y]. *)

Module Keccak.
Local Open Scope Z_scope.

Definition mask64 : Z := Z.ones 64.

Definition rotl64 (v : Z) (n : Z) : Z :=
  Z.land (Z.lor (Z.shiftl v n) (Z.shiftr v (64 - n))) mask64.

Definition lane (st : list Z) (x y : nat) : Z :=
  nth (x mod 5 + 5 * (y mod 5)) st 0.

Definition tabulate (f : nat -> nat -> Z) : list Z :=
  map (fun i => f (i mod 5)%nat (i / 5)%nat) (seq 0 25).

Definition theta (st : list Z) : list Z :=
  let C x := fold_left Z.lxor (map (lane st x) (seq 0 5)) 0 in
  let D x := Z.lxor (C (x + 4)%nat) (rotl64 (C (x + 1)%nat) 1) in
  tabulate (fun x y => Z.lxor (lane st x y) (D x)).

Definition rotation_offsets : list Z :=
  [ 0;  1; 62; 28; 27;
   36; 44;  6; 55; 20;
    3; 10; 43; 25; 39;
   41; 45; 15; 21;  8;
   18;  2; 61; 56; 14].

(** rho and pi together: the lane written at (X, Y) is the lane read at
    (X + 3Y, X), rotated by the offset of its old position. *)
Definition rho_pi (st : list Z) : list Z :=
  tabulate (fun X Y =>
    let x := ((X + 3 * Y) mod 5)%nat in
    rotl64 (lane st x X) (lane rotation_offsets x X)).

Definition chi (st : list Z) : list Z :=
  tabulate (fun x y =>
    Z.lxor (lane st x y)
           (Z.ldiff (lane st (x + 2) y) (lane st (x + 1) y))).

Definition iota (rc : Z) (st : list Z) : list Z :=
  match st with
  | [] => []
  | a :: rest => Z.lxor a rc :: rest
  end.

Definition round_constants : list Z :=
  [0x0000000000000001; 0x0000000000008082; 0x800000000000808A;
   0x8000000080008000; 0x000000000000808B; 0x0000000080000001;
   0x8000000080008081; 0x8000000000008009; 0x000000000000008A;
   0x0000000000000088; 0x0000000080008009; 0x000000008000000A;
   0x000000008000808B; 0x800000000000008B; 0x8000000000008089;
   0x8000000000008003; 0x8000000000008002; 0x8000000000000080;
   0x000000000000800A; 0x800000008000000A; 0x8000000080008081;
   0x8000000000008080; 0x0000000080000001; 0x8000000080008008].

Definition keccak_f (st : list Z) : list Z :=
  fold_left (fun s rc => iota rc (chi (rho_pi (theta s)))) round_constants st.

(** Rate of Keccak-256 in bytes. *)
Definition rate : nat := 136.

(** Original Keccak padding (domain byte 0x01, final bit 0x80). *)
Definition pad (msg : list Z) : list Z :=
  let q := (rate - length msg mod rate)%nat in
  match q with
  | 1%nat => msg ++ [0x81]
  | _ => msg ++ [0x01] ++ repeat 0 (q - 2) ++ [0x80]
  end.

(** Little-endian bytes to one lane, and back. *)
Fixpoint lane_of_bytes (bs : list Z) : Z :=
  match bs with
  | [] => 0
  | b :: rest => Z.lor b (Z.shiftl (lane_of_bytes rest) 8)
  end.

Definition bytes_of_lane (v : Z) : list Z :=
  map (fun i => Z.land (Z.shiftr v (8 * Z.of_nat i)) 255) (seq 0 8).

Fixpoint lanes_of_bytes (n : nat) (bs : list Z) : list Z :=
  match n with
  | O => []
  | S n' => lane_of_bytes (firstn 8 bs) :: lanes_of_bytes n' (skipn 8 bs)
  end.

Fixpoint xor_lanes (st blk : list Z) : list Z :=
  match st, blk with
  | a :: st', b :: blk' => Z.lxor a b :: xor_lanes st' blk'
  | _, _ => st
  end.

(** Absorb [blocks] blocks of [rate] bytes. *)
Fixpoint absorb (blocks : nat) (st : list Z) (bs : list Z) : list Z :=
  match blocks with
  | O => st
  | S n =>
      absorb n (keccak_f (xor_lanes st (lanes_of_bytes 17 (firstn rate bs))))
             (skipn rate bs)
  end.

(** The 32-byte digest. *)
Definition keccak256 (msg : list Z) : list Z :=
  let padded := pad msg in
  let st := absorb (length padded / rate) (repeat 0 25) padded in
  flat_map bytes_of_lane (firstn 4 st).

Definition hex_digit (n : Z) : ascii :=
  nth (Z.to_nat n)
      (list_ascii_of_string "0123456789abcdef") "0"%char.

Fixpoint encode_hex (bs : list Z) : string :=
  match bs with
  | [] => EmptyString
  | b :: rest =>
      String (hex_digit (Z.shiftr b 4))
             (String (hex_digit (Z.land b 15)) (encode_hex rest))
  end.

Definition text_bytes (s : string) : list Z :=
  map (fun c => Z.of_N (N_of_ascii c)) (list_ascii_of_string s).

Example keccak256_empty :
  encode_hex (keccak256 []) =
  "c5d2460186f7233c927e7db2dcc703c0e500b653ca82273b7bfad8045d85a470"%string.
Proof. vm_compute. reflexivity. Qed.

Example keccak256_abc :
  encode_hex (keccak256 (text_bytes "abc")) =
  "4e03657aea45a94fc7d47ba826c8d667c0d1e6e33a64a036ec44f58fa12d6c45"%string.
Proof. vm_compute. reflexivity. Qed.

End Keccak.

(** ** [eth_utils.address]

    The functions of the [eth_utils] package that the handler and the
    address check rely on, for [str] arguments. *)

Module EthUtils.

Definition in_range (lo hi : N) (c : ascii) : bool :=
  let n := N_of_ascii c in ((lo <=? n) && (n <=? hi))%N.

Definition shift_char (c : ascii) (d : Z) : ascii :=
  ascii_of_N (Z.to_N (Z.of_N (N_of_ascii c) + d)).

(** [str.lower] on the code points 0..255: A-Z and the upper-case
    Latin-1 letters (all of U+00C0..U+00DE but the multiplication
    sign). *)
Definition lower_char (c : ascii) : ascii :=
  if in_range 65 90 c
     || (in_range 192 222 c && negb (N_of_ascii c =? 215)%N)
  then shift_char c 32 else c.

(** [str.upper] as the checksum uses it, on hex digits only. *)
Definition upper_hex_char (c : ascii) : ascii :=
  if in_range 97 102 c then shift_char c (-32) else c.

Fixpoint map_string (f : ascii -> ascii) (s : string) : string :=
  match s with
  | EmptyString => EmptyString
  | String c s' => String (f c) (map_string f s')
  end.

Definition lower : string -> string := map_string lower_char.

Definition is_hex_char (c : ascii) : bool :=
  in_range 48 57 c || in_range 97 102 c || in_range 65 70 c.

Definition is_0x_prefixed (s : string) : bool :=
  match s with
  | String "0" (String x _) => Ascii.eqb x "x" || Ascii.eqb x "X"
  | _ => false
  end.

Definition remove_0x_prefix (s : string) : string :=
  if is_0x_prefixed s then substring 2 (String.length s - 2) s else s.

Definition add_0x_prefix (s : string) : string :=
  if is_0x_prefixed s then s else "0x" ++ s.

(** [is_hex_address]: forty hex digits after an optional 0x. *)
Definition is_hex_address (s : string) : bool :=
  let digits := list_ascii_of_string (remove_0x_prefix s) in
  (List.length digits =? 40)%nat && forallb is_hex_char digits.

(** [to_normalized_address]: the 0x-prefixed lower-case form, [None]
    where the library raises [ValueError]. *)
Definition to_normalized_address (value : string) : option string :=
  let hex_address := lower (add_0x_prefix (lower value)) in
  if is_hex_address hex_address then Some hex_address else None.

(** Letter [c] is upper-cased when the digest nibble [h] at the same
    position is above 7. *)
Fixpoint apply_checksum (digits digest : list ascii) : string :=
  match digits, digest with
  | c :: digits', h :: digest' =>
      String (if in_range 56 57 h || in_range 97 102 h
              then upper_hex_char c else c)
             (apply_checksum digits' digest')
  | _, _ => EmptyString
  end.

(** [to_checksum_address]; [None] where the library raises
    [ValueError]. *)
Definition to_checksum_address (value : string) : option string :=
  match to_normalized_address value with
  | None => None
  | Some norm_address =>
      let unprefixed := remove_0x_prefix norm_address in
      let address_hash :=
        Keccak.encode_hex (Keccak.keccak256 (Keccak.text_bytes unprefixed)) in
      Some (add_0x_prefix
              (apply_checksum (list_ascii_of_string unprefixed)
                              (list_ascii_of_string address_hash)))
  end.

Definition is_checksum_address (value : string) : bool :=
  is_hex_address value &&
  match to_checksum_address value with
  | Some c => String.eqb value c
  | None => false
  end.

Example checksum_eip55_1 :
  to_checksum_address "0x5aaeb6053f3e94c9b9a09f33669435e7ef1beaed"
  = Some "0x5aAeb6053F3E94C9b9A09f33669435E7Ef1BeAed".
Proof. vm_compute. reflexivity. Qed.

Example checksum_eip55_2 :
  to_checksum_address "FB6916095CA1DF60BB79CE92CE3EA74C37C5D359"
  = Some "0xfB6916095ca1df60bB79Ce92cE3Ea74c37c5d359".
Proof. vm_compute. reflexivity. Qed.

Example checksum_rejects_short : to_checksum_address "0x1234" = None.
Proof. vm_compute. reflexivity. Qed.

End EthUtils.

(** ** [registry.api.utils] *)

Module Registry.

(** Modelled from the spec: [is_valid_address] is imported from
    [registry.api.utils], which is not part of the sources at hand.
    The address validator "checks syntactic and checksum validity of an
    address string": a well-formed hex address has a fixed length, valid
    hex digits and an optional 0x prefix, and "for all valid
    checksum-mixed-case or lowercase addresses of the correct length,
    validation succeeds".  A lower-case string is checked for its
    syntax, any other string must carry its own checksum. *)
Definition is_valid_address (address : string) : bool :=
  if String.eqb address (EthUtils.lower address)
  then EthUtils.is_hex_address address
  else EthUtils.is_checksum_address address.

Example valid_lowercase :
  is_valid_address "0x5aaeb6053f3e94c9b9a09f33669435e7ef1beaed" = true.
Proof. vm_compute. reflexivity. Qed.

Example valid_checksummed :
  is_valid_address "0x5aAeb6053F3E94C9b9A09f33669435E7Ef1BeAed" = true.
Proof. vm_compute. reflexivity. Qed.

Example invalid_wrong_case :
  is_valid_address "0x5AAeb6053F3E94C9b9A09f33669435E7Ef1BeAed" = false.
Proof. vm_compute. reflexivity. Qed.

Example invalid_not_hex : is_valid_address "not-an-address" = false.
Proof. vm_compute. reflexivity. Qed.

End Registry.

(** ** Python values, exceptions and the process state *)

(** A decoded JSON document, as [response.json()] returns it.  A float
    is its IEEE-754 binary64 bit pattern; a dict is the list of its
    items in insertion order. *)
Inductive pyvalue : Type :=
| PyNone
| PyBool (b : bool)
| PyInt (n : Z)
| PyFloat (bits : Z)
| PyStr (s : string)
| PyList (items : list pyvalue)
| PyDict (items : list (string * pyvalue)).

(** The exceptions the handler can meet.  The first three are the API
    exceptions it raises itself, the others come from the calls inside
    its [try] block and from [to_checksum_address]. *)
Inductive exception : Type :=
| InvalidAddressException
| BadModelNameError (detail : string)
| PassportAnalysisError
| ValueError (msg : string)
| RequestException (msg : string)
| HTTPError (status : Z) (body : string)
| JSONDecodeError (body : string)
| AttributeError (msg : string)
| KeyError (key : string)
| IndexError (msg : string).

(** [class BadModelNameError] and [class PassportAnalysisError] set
    their [status_code]. *)
Definition status_code (e : exception) : option Z :=
  match e with
  | BadModelNameError _ => Some 400%Z
  | PassportAnalysisError => Some 500%Z
  | _ => None
  end.

(** Modelled from the spec: [InvalidAddressException] is declared in
    [registry.exceptions], which is not part of the sources at hand; the
    error taxonomy gives "InvalidAddress - malformed address syntax ->
    outward 400". *)
Definition InvalidAddressException_status_code : Z := 400%Z.

(** The status the framework answers with for an API exception. *)
Definition outward_status (e : exception) : option Z :=
  match e with
  | InvalidAddressException => Some InvalidAddressException_status_code
  | _ => status_code e
  end.

(** The [detail] of the exceptions declared in this module: the one
    passed to the constructor, or the class's [default_detail]. *)
Definition detail (e : exception) : option string :=
  match e with
  | BadModelNameError d => Some d
  | PassportAnalysisError => Some "Error retrieving Passport analysis"
  | _ => None
  end.

(** [dict.get], [dict.keys] and item assignment on an item list. *)
Fixpoint dict_get {V : Type} (key : string) (d : list (string * V)) : option V :=
  match d with
  | [] => None
  | (k, v) :: d' => if String.eqb k key then Some v else dict_get key d'
  end.

Definition dict_keys {V : Type} (d : list (string * V)) : list string :=
  map fst d.

Fixpoint dict_set {V : Type} (key : string) (v : V) (d : list (string * V))
  : list (string * V) :=
  match d with
  | [] => [(key, v)]
  | (k, x) :: d' =>
      if String.eqb k key then (k, v) :: d' else (k, x) :: dict_set key v d'
  end.

(** What [requests.post] is called with, and what comes back. *)
Record post_request : Type := {
  url : string;
  json : pyvalue;
  headers : list (string * string)
}.

Record Response : Type := {
  http_status : Z;
  text : string;
  decoded : option pyvalue   (* [None]: the body is not JSON *)
}.

Inductive post_result : Type :=
| ConnectionFailed (msg : string)
| Responded (r : Response).

(** [class PassportAnalysisDetailsModels]: each field holds what
    [setattr] stored in it. *)
Record PassportAnalysisDetailsModels : Type := {
  ethereum : option pyvalue;
  nft : option pyvalue;
  zksync : option pyvalue
}.

Record PassportAnalysisDetails : Type := {
  models : PassportAnalysisDetailsModels
}.

Record PassportAnalysisResponse : Type := {
  address : string;
  details : PassportAnalysisDetails
}.

(** [django.conf.settings], as far as this module reads it. *)
Record Settings : Type := {
  ETHEREUM_MODEL_ENDPOINT : string;
  NFT_MODEL_ENDPOINT : string;
  ZKSYNC_MODEL_ENDPOINT : string
}.

(** The state of the process a request runs in. *)
Record process : Type := {
  MODEL_ENDPOINTS : list (string * string);
  stdout : list (list pyvalue);
  log_errors : list (string * exception);
  outbound : list post_request
}.

(** The module-level assignment of [MODEL_ENDPOINTS]. *)
Definition module_endpoints (settings : Settings) : list (string * string) :=
  [("ethereum", ETHEREUM_MODEL_ENDPOINT settings);
   ("nft", NFT_MODEL_ENDPOINT settings);
   ("zksync", ZKSYNC_MODEL_ENDPOINT settings)].

Definition start (settings : Settings) : process :=
  {| MODEL_ENDPOINTS := module_endpoints settings;
     stdout := []; log_errors := []; outbound := [] |}.

(** ** The handler's monad: process state and exceptions *)

Inductive outcome (A : Type) : Type :=
| Returned (a : A)
| Raised (e : exception).
Arguments Returned {A} a.
Arguments Raised {A} e.

Definition M (A : Type) : Type := process -> outcome A * process.

Definition ret {A : Type} (a : A) : M A := fun w => (Returned a, w).

Definition raise {A : Type} (e : exception) : M A := fun w => (Raised e, w).

Definition bind {A B : Type} (m : M A) (k : A -> M B) : M B :=
  fun w =>
    match m w with
    | (Returned a, w') => k a w'
    | (Raised e, w') => (Raised e, w')
    end.

(** [try: body  except Exception: handler] *)
Definition try_except {A : Type} (body : M A) (handler : exception -> M A)
  : M A :=
  fun w =>
    match body w with
    | (Returned a, w') => (Returned a, w')
    | (Raised e, w') => handler e w'
    end.

Declare Scope py_scope.
Delimit Scope py_scope with py.
Notation "x <- m ;; k" := (bind m (fun x => k))
  (at level 61, m at next level, right associativity) : py_scope.
Notation "m ;;; k" := (bind m (fun _ => k))
  (at level 61, right associativity) : py_scope.

(** Reading the module-level [MODEL_ENDPOINTS]. *)
Definition read_MODEL_ENDPOINTS : M (list (string * string)) :=
  fun w => (Returned (MODEL_ENDPOINTS w), w).

(** [print] of its positional arguments, on a standard output that
    encodes UTF-8.  An argument is written through [str]: for all but a
    [str] that is its [repr], in which what cannot be encoded is escaped,
    and a [str] of this model (code points 0..255) can be encoded as it
    is.  So the call raises on no value of [pyvalue]; the one argument
    Python's [print] raises on, a [str] holding a lone surrogate, is not
    among them. *)
Definition print (args : list pyvalue) : M unit :=
  fun w =>
    (Returned tt,
     {| MODEL_ENDPOINTS := MODEL_ENDPOINTS w;
        stdout := stdout w ++ [args];
        log_errors := log_errors w;
        outbound := outbound w |}).

(** [log.error(msg, exc_info=True)] inside an [except] clause for [e]. *)
Definition log_error (msg : string) (e : exception) : M unit :=
  fun w =>
    (Returned tt,
     {| MODEL_ENDPOINTS := MODEL_ENDPOINTS w;
        stdout := stdout w;
        log_errors := log_errors w ++ [(msg, e)];
        outbound := outbound w |}).

(** [d[key]] *)
Definition subscript {V : Type} (d : list (string * V)) (key : string) : M V :=
  match dict_get key d with
  | Some v => ret v
  | None => raise (KeyError key)
  end.

Definition type_name (v : pyvalue) : string :=
  match v with
  | PyNone => "NoneType"
  | PyBool _ => "bool"
  | PyInt _ => "int"
  | PyFloat _ => "float"
  | PyStr _ => "str"
  | PyList _ => "list"
  | PyDict _ => "dict"
  end.

(** [v.get(key, default)]: only a dict has the method. *)
Definition py_get (v : pyvalue) (key : string) (default : pyvalue) : M pyvalue :=
  match v with
  | PyDict items =>
      ret (match dict_get key items with Some x => x | None => default end)
  | _ =>
      raise (AttributeError
               ("'" ++ type_name v ++ "' object has no attribute 'get'"))
  end.

(** [response.raise_for_status()]: statuses 400..599 raise. *)
Definition raise_for_status (r : Response) : M unit :=
  if ((400 <=? http_status r) && (http_status r <? 600))%Z
  then raise (HTTPError (http_status r) (text r))
  else ret tt.

(** [response.json()] *)
Definition response_json (r : Response) : M pyvalue :=
  match decoded r with
  | Some v => ret v
  | None => raise (JSONDecodeError (text r))
  end.

(** [PassportAnalysisDetailsModels()] *)
Definition new_PassportAnalysisDetailsModels : PassportAnalysisDetailsModels :=
  {| ethereum := None; nft := None; zksync := None |}.

(** [setattr(model_results, name, value)]: a schema object takes its
    declared fields only. *)
Definition setattr (o : PassportAnalysisDetailsModels) (name : string)
  (value : pyvalue) : M PassportAnalysisDetailsModels :=
  if String.eqb name "ethereum" then
    ret {| ethereum := Some value; nft := nft o; zksync := zksync o |}
  else if String.eqb name "nft" then
    ret {| ethereum := ethereum o; nft := Some value; zksync := zksync o |}
  else if String.eqb name "zksync" then
    ret {| ethereum := ethereum o; nft := nft o; zksync := Some value |}
  else
    raise (ValueError
             ("'PassportAnalysisDetailsModels' object has no field '"
              ++ name ++ "'")).

(** [xs[0]] *)
Definition first_item {A : Type} (xs : list A) : M A :=
  match xs with
  | x :: _ => ret x
  | [] => raise (IndexError "list index out of range")
  end.

(** [set(xs) - set(ys)].  The handler takes this difference of a
    one-element list only, so the iteration order of a Python set plays
    no part. *)
Definition set_difference (xs ys : list string) : list string :=
  filter (fun x => negb (existsb (String.eqb x) ys)) (nodup string_dec xs).

(** ** [handle_get_analysis] *)

Section Handler.

(** The collaborators: [registry.api.utils.is_valid_address],
    [eth_utils.to_checksum_address] ([None] where it raises
    [ValueError]) and the services that answer [requests.post]. *)
Variable is_valid_address : string -> bool.
Variable to_checksum_address : string -> option string.
Variable upstream : post_request -> post_result.

Local Open Scope py_scope.

(** [requests.post(url, json=..., headers=...)] *)
Definition requests_post (u : string) (body : pyvalue)
  (hs : list (string * string)) : M Response :=
  fun w =>
    let request := {| url := u; json := body; headers := hs |} in
    let w' := {| MODEL_ENDPOINTS := MODEL_ENDPOINTS w;
                 stdout := stdout w;
                 log_errors := log_errors w;
                 outbound := outbound w ++ [request] |} in
    match upstream request with
    | Responded r => (Returned r, w')
    | ConnectionFailed msg => (Raised (RequestException msg), w')
    end.

Definition checksum (address : string) : M string :=
  match to_checksum_address address with
  | Some c => ret c
  | None => raise (ValueError "Unknown format, attempted to normalize to hex")
  end.

(** [[model.strip() for model in model_list.split(",")]] *)
Definition split_models (model_list : string) : list string :=
  map PyStr.strip (PyStr.split "," model_list).

(** [len(models) == 0 or models[0] == ""] *)
Definition no_models (models : list string) : bool :=
  (length models =? 0)%nat
  || match models with m :: _ => String.eqb m "" | [] => false end.

Definition only_one_model : string :=
  "Currently, only one model name can be provided at a time".

Definition no_models_provided : string := "No model names provided".

Definition invalid_model_names (bad_models known : list string) : string :=
  "Invalid model name(s): " ++ PyStr.join ", " bad_models
  ++ ". Must be one of " ++ PyStr.join ", " known.

Definition json_headers : list (string * string) :=
  [("Content-Type", "application/json"); ("Accept", "application/json")].

(** The [for model_name, score in scores.items()] loop. *)
Fixpoint set_scores (items : list (string * pyvalue))
  (model_results : PassportAnalysisDetailsModels)
  : M PassportAnalysisDetailsModels :=
  match items with
  | [] => ret model_results
  | (model_name, score) :: rest =>
      model_results' <-
        setattr model_results model_name (PyDict [("score", score)]) ;;
      set_scores rest model_results'
  end.

(** The body of the [try] block. *)
Definition analyse (address checksum_address : string) (models : list string)
  : M PassportAnalysisResponse :=
  let scores : list (string * pyvalue) := [] in
  model <- first_item models ;;
  endpoints <- read_MODEL_ENDPOINTS ;;
  endpoint <- subscript endpoints model ;;
  response <-
    requests_post endpoint (PyDict [("address", PyStr checksum_address)])
                  json_headers ;;
  raise_for_status response ;;;
  response_body <- response_json response ;;
  print [PyStr "Response body:"; response_body] ;;;
  data <- py_get response_body "data" (PyDict []) ;;
  score <- py_get data "human_probability" (PyInt 0) ;;
  let scores := dict_set model score scores in
  model_results <- set_scores scores new_PassportAnalysisDetailsModels ;;
  ret {| address := address;
         details := {| models := model_results |} |}.

Definition handle_get_analysis (address model_list : string)
  : M PassportAnalysisResponse :=
  let models := split_models model_list in
  if negb (is_valid_address address) then raise InvalidAddressException
  else if (1 <? length models)%nat then
    raise (BadModelNameError only_one_model)
  else if no_models models then
    raise (BadModelNameError no_models_provided)
  else
    endpoints <- read_MODEL_ENDPOINTS ;;
    let bad_models := set_difference models (dict_keys endpoints) in
    if negb (length bad_models =? 0)%nat then
      known <- read_MODEL_ENDPOINTS ;;
      raise (BadModelNameError
               (invalid_model_names bad_models (dict_keys known)))
    else
      checksum_address <- checksum address ;;
      try_except
        (analyse address checksum_address models)
        (fun e =>
           log_error "Error retrieving Passport analysis" e ;;;
           raise PassportAnalysisError).

End Handler.

(** ** A deployment to run the handler in

    The address check and the checksum of the libraries above, three
    endpoints, and model services that answer every call the same way. *)

Definition sample_settings : Settings :=
  {| ETHEREUM_MODEL_ENDPOINT := "http://models.internal/ethereum";
     NFT_MODEL_ENDPOINT := "http://models.internal/nft";
     ZKSYNC_MODEL_ENDPOINT := "http://models.internal/zksync" |}.

(** A service that answers with status [code] and body [doc]. *)
Definition answering (code : Z) (body : string) (doc : option pyvalue)
  : post_request -> post_result :=
  fun _ => Responded {| http_status := code; text := body; decoded := doc |}.

(** The text of a JSON string literal: [s] between double quotes. *)
Definition quoted (s : string) : string :=
  String (ascii_of_nat 34) (s ++ String (ascii_of_nat 34) EmptyString).

(** A service that cannot be reached. *)
Definition unreachable : post_request -> post_result :=
  fun _ => ConnectionFailed "Connection refused".

Definition human_probability_42 : post_request -> post_result :=
  answering 200
    ("{" ++ quoted "data" ++ ": {" ++ quoted "human_probability" ++ ": 42}}")
    (Some (PyDict [("data", PyDict [("human_probability", PyInt 42)])])).

(** A 200 answer whose ["data"] is [null]. *)
Definition null_data : post_request -> post_result :=
  answering 200 ("{" ++ quoted "data" ++ ": null}")
    (Some (PyDict [("data", PyNone)])).

(** A 200 answer without ["data"]. *)
Definition empty_object : post_request -> post_result :=
  answering 200 "{}" (Some (PyDict [])).

(** A 503 answer with an HTML body. *)
Definition service_unavailable : post_request -> post_result :=
  answering 503 "<html>Service Unavailable</html>" None.

Definition lowercase_address : string :=
  "0x5aaeb6053f3e94c9b9a09f33669435e7ef1beaed".

Definition checksummed_address : string :=
  "0x5aAeb6053F3E94C9b9A09f33669435E7Ef1BeAed".

(** The handler of the sample deployment. *)
Definition serve (upstream : post_request -> post_result)
  (address model_list : string) : M PassportAnalysisResponse :=
  handle_get_analysis Registry.is_valid_address EthUtils.to_checksum_address
                      upstream address model_list.

(** The score a response reports for [model]: the ["score"] item of the
    field of that name. *)
Definition reported_score (model : string) (r : PassportAnalysisResponse)
  : option pyvalue :=
  let fields := models (details r) in
  let field :=
    if String.eqb model "ethereum" then ethereum fields
    else if String.eqb model "nft" then nft fields
    else if String.eqb model "zksync" then zksync fields
    else None in
  match field with
  | Some (PyDict items) => dict_get "score" items
  | _ => None
  end.

(** The call the handler makes for a model served at [endpoint]. *)
Definition model_request (endpoint checksum_address : string) : post_request :=
  {| url := endpoint;
     json := PyDict [("address", PyStr checksum_address)];
     headers :=
       [("Content-Type", "application/json"); ("Accept", "application/json")] |}.

(** The ways a call to a model endpoint fails: no response at all, a
    response on whose status [raise_for_status] raises, a body that is
    not JSON. *)
Inductive dispatch_failure : post_result -> Prop :=
| network_error (msg : string) : dispatch_failure (ConnectionFailed msg)
| error_status (r : Response) :
    (400 <= http_status r < 600)%Z -> dispatch_failure (Responded r)
| not_json (r : Response) :
    decoded r = None -> dispatch_failure (Responded r).

(** [data.human_probability] is absent from a decoded body: the body is
    an object without ["data"], or its ["data"] is an object without
    ["human_probability"]. *)
Definition human_probability_absent (body : pyvalue) : Prop :=
  exists items,
    body = PyDict items
    /\ (dict_get "data" items = None
        \/ exists data, dict_get "data" items = Some (PyDict data)
                        /\ dict_get "human_probability" data = None).

(** The process state once [request] has been sent. *)
Definition posted (w : process) (request : post_request) : process :=
  {| MODEL_ENDPOINTS := MODEL_ENDPOINTS w;
     stdout := stdout w;
     log_errors := log_errors w;
     outbound := outbound w ++ [request] |}.

(** Whether a decoded body holds a number at [data.human_probability]. *)
Definition has_human_probability (body : pyvalue) : bool :=
  match body with
  | PyDict items =>
      match dict_get "data" items with
      | Some (PyDict data) =>
          match dict_get "human_probability" data with
          | Some (PyInt _) | Some (PyFloat _) => true
          | _ => false
          end
      | _ => false
      end
  | _ => false
  end.

(** The names of the fields of [PassportAnalysisDetailsModels]. *)
Definition schema_fields : list string := ["ethereum"; "nft"; "zksync"].

(** * Properties *)

(** ** What a computation may do to the process state

    A computation [confined] to its request leaves [MODEL_ENDPOINTS] as
    it found it, and its outcome is a function of [MODEL_ENDPOINTS]
    alone: standard output, the log and the trace of earlier outbound
    calls are written, never read. *)

Definition confined {A : Type} (m : M A) : Prop :=
  forall w1 w2,
    MODEL_ENDPOINTS w1 = MODEL_ENDPOINTS w2 ->
    fst (m w1) = fst (m w2)
    /\ MODEL_ENDPOINTS (snd (m w1)) = MODEL_ENDPOINTS w1.

(** A computation is [silent] when it posts nothing; [silent P m] also
    says that whatever [m] returns satisfies [P]. *)
Definition silent {A : Type} (P : A -> Prop) (m : M A) : Prop :=
  forall w,
    outbound (snd (m w)) = outbound w
    /\ forall a, fst (m w) = Returned a -> P a.

Definition anything {A : Type} (_ : A) : Prop := True.

Lemma confined_ret {A : Type} (a : A) : confined (ret a).
Proof. intros w1 w2 _. now split. Qed.

Lemma confined_raise {A : Type} (e : exception) : confined (@raise A e).
Proof. intros w1 w2 _. now split. Qed.

Lemma confined_bind {A B : Type} (m : M A) (k : A -> M B) :
  confined m -> (forall a, confined (k a)) -> confined (bind m k).
Proof.
  intros Hm Hk w1 w2 E. unfold bind.
  destruct (Hm w1 w2 E) as [Hr H1].
  destruct (Hm w2 w1 (eq_sym E)) as [_ H2].
  destruct (m w1) as [r1 v1], (m w2) as [r2 v2]; simpl in *. subst r2.
  destruct r1 as [a|e]; simpl; [|now split].
  assert (E' : MODEL_ENDPOINTS v1 = MODEL_ENDPOINTS v2) by congruence.
  destruct (Hk a v1 v2 E') as [Hr' H']. split; congruence.
Qed.

Lemma confined_try_except {A : Type} (body : M A) (handler : exception -> M A) :
  confined body -> (forall e, confined (handler e)) ->
  confined (try_except body handler).
Proof.
  intros Hm Hk w1 w2 E. unfold try_except.
  destruct (Hm w1 w2 E) as [Hr H1].
  destruct (Hm w2 w1 (eq_sym E)) as [_ H2].
  destruct (body w1) as [r1 v1], (body w2) as [r2 v2]; simpl in *. subst r2.
  destruct r1 as [a|e]; simpl; [now split|].
  assert (E' : MODEL_ENDPOINTS v1 = MODEL_ENDPOINTS v2) by congruence.
  destruct (Hk e v1 v2 E') as [Hr' H']. split; congruence.
Qed.

Lemma confined_read : confined read_MODEL_ENDPOINTS.
Proof. intros w1 w2 E. simpl. split; congruence. Qed.

Lemma confined_print (args : list pyvalue) : confined (print args).
Proof. intros w1 w2 _. now split. Qed.

Lemma confined_log_error (msg : string) (e : exception) :
  confined (log_error msg e).
Proof. intros w1 w2 _. now split. Qed.

Lemma confined_subscript {V : Type} (d : list (string * V)) (key : string) :
  confined (subscript d key).
Proof.
  unfold subscript. destruct (dict_get key d);
    [apply confined_ret | apply confined_raise].
Qed.

Lemma confined_first_item {A : Type} (xs : list A) : confined (first_item xs).
Proof. destruct xs; [apply confined_raise | apply confined_ret]. Qed.

Lemma confined_py_get (v : pyvalue) (key : string) (default : pyvalue) :
  confined (py_get v key default).
Proof. destruct v; simpl; (apply confined_ret || apply confined_raise). Qed.

Lemma confined_raise_for_status (r : Response) : confined (raise_for_status r).
Proof.
  unfold raise_for_status.
  destruct (_ && _); [apply confined_raise | apply confined_ret].
Qed.

Lemma confined_response_json (r : Response) : confined (response_json r).
Proof.
  unfold response_json.
  destruct (decoded r); [apply confined_ret | apply confined_raise].
Qed.

Lemma confined_setattr (o : PassportAnalysisDetailsModels) (name : string)
  (value : pyvalue) : confined (setattr o name value).
Proof.
  unfold setattr.
  repeat match goal with
         | |- confined (if ?b then _ else _) => destruct b
         end; (apply confined_ret || apply confined_raise).
Qed.

Create HintDb confined.
#[export] Hint Resolve confined_ret confined_raise confined_read
  confined_print confined_log_error confined_subscript confined_first_item
  confined_py_get confined_raise_for_status confined_response_json
  confined_setattr : confined.

Section Properties.

Variable is_valid_address : string -> bool.
Variable to_checksum_address : string -> option string.
Variable upstream : post_request -> post_result.

Local Abbreviation handle :=
  (handle_get_analysis is_valid_address to_checksum_address upstream).

Lemma confined_requests_post (u : string) (body : pyvalue)
  (hs : list (string * string)) : confined (requests_post upstream u body hs).
Proof.
  intros w1 w2 _. unfold requests_post.
  destruct (upstream _); now split.
Qed.

Lemma confined_checksum (a : string) : confined (checksum to_checksum_address a).
Proof.
  unfold checksum.
  destruct (to_checksum_address a); auto with confined.
Qed.

Lemma confined_set_scores (items : list (string * pyvalue))
  (o : PassportAnalysisDetailsModels) : confined (set_scores items o).
Proof.
  revert o. induction items as [|[name score] rest IH]; intro o; simpl.
  - apply confined_ret.
  - apply confined_bind; auto with confined.
Qed.

Lemma confined_analyse (a c : string) (ms : list string) :
  confined (analyse upstream a c ms).
Proof.
  unfold analyse.
  repeat (apply confined_bind; [|intro]);
    auto using confined_requests_post, confined_set_scores with confined.
Qed.

Lemma confined_handle (a ml : string) : confined (handle a ml).
Proof.
  unfold handle_get_analysis.
  repeat match goal with
         | |- confined (if ?b then _ else _) => destruct b
         | |- confined (bind _ _) => apply confined_bind; [|intro]
         | |- confined (try_except _ _) => apply confined_try_except; [|intro]
         end;
    auto using confined_checksum, confined_analyse with confined.
Qed.

(** ** The endpoint map and hidden state *)

(** C8: request handling never mutates the model-name-to-endpoint map:
    after every call of [handle_get_analysis], whatever its outcome,
    [MODEL_ENDPOINTS] is the mapping it was before the call. *)
Theorem MODEL_ENDPOINTS_never_mutated :
  forall (address model_list : string) (w : process),
    MODEL_ENDPOINTS (snd (handle address model_list w)) = MODEL_ENDPOINTS w.
Proof.
  intros a ml w. now destruct (confined_handle a ml w w eq_refl).
Qed.

(** C7: [handle_get_analysis] is deterministic.  Against the same
    upstream, the same request has the same outcome when it is repeated,
    when any other request was served in between, and whatever standard
    output, the log and the trace of outbound calls held before: no
    hidden state is read or accumulated across calls. *)
Theorem handle_get_analysis_deterministic :
  forall (address model_list : string) (w : process),
    fst (handle address model_list (snd (handle address model_list w)))
    = fst (handle address model_list w)
    /\ (forall address' model_list',
          fst (handle address model_list
                      (snd (handle address' model_list' w)))
          = fst (handle address model_list w))
    /\ (forall out errs posts,
          fst (handle address model_list
                      {| MODEL_ENDPOINTS := MODEL_ENDPOINTS w;
                         stdout := out; log_errors := errs;
                         outbound := posts |})
          = fst (handle address model_list w)).
Proof.
  intros a ml w.
  assert (after : forall a' ml',
             fst (handle a ml (snd (handle a' ml' w))) = fst (handle a ml w)).
  { intros a' ml'.
    destruct (confined_handle a' ml' w w eq_refl) as [_ Hkeep].
    now destruct (confined_handle a ml _ _ Hkeep). }
  repeat split; auto.
  intros out errs posts.
  now destruct (confined_handle a ml
                  {| MODEL_ENDPOINTS := MODEL_ENDPOINTS w; stdout := out;
                     log_errors := errs; outbound := posts |} w eq_refl).
Qed.

(** ** Validation *)

Lemma split_models_nonempty (model_list : string) :
  split_models model_list <> [].
Proof.
  unfold split_models. intro H. apply map_eq_nil in H.
  exact (PyStr.split_nonempty _ _ H).
Qed.

(** C4: a request whose address is not valid fails with
    [InvalidAddressException], answered with status 400, and the process
    state is left as it was: nothing is posted to a model endpoint. *)
Theorem invalid_address_rejected :
  forall (address model_list : string) (w : process),
    is_valid_address address = false ->
    handle address model_list w = (Raised InvalidAddressException, w)
    /\ outward_status InvalidAddressException = Some 400%Z
    /\ outbound (snd (handle address model_list w)) = outbound w.
Proof.
  intros a ml w H. unfold handle_get_analysis. rewrite H. simpl.
  repeat split.
Qed.

(** C2, amended: the address is validated before the structure of the
    model names.  A request whose address is invalid and whose
    [model_list] holds more than one name, or no name, fails with
    [InvalidAddressException], never with [BadModelNameError]. *)
Theorem address_checked_before_models :
  forall (address model_list : string) (w : process),
    is_valid_address address = false ->
    (1 < length (split_models model_list))%nat
    \/ no_models (split_models model_list) = true ->
    fst (handle address model_list w) = Raised InvalidAddressException
    /\ forall d, fst (handle address model_list w)
                 <> Raised (BadModelNameError d).
Proof.
  intros a ml w H _. unfold handle_get_analysis. rewrite H. simpl.
  split; [reflexivity | discriminate].
Qed.

(** C6, amended: with a valid address, [model_list] equal to the empty
    string or to a single space fails with the 400 [BadModelNameError]
    whose detail is "No model names provided". *)
Theorem blank_model_list_rejected :
  forall (address model_list : string) (w : process),
    is_valid_address address = true ->
    model_list = "" \/ model_list = " " ->
    handle address model_list w
    = (Raised (BadModelNameError "No model names provided"), w)
    /\ outward_status (BadModelNameError "No model names provided")
       = Some 400%Z.
Proof.
  intros a ml w H [-> | ->]; unfold handle_get_analysis; rewrite H;
    split; reflexivity.
Qed.

(** C9, amended: with a valid address, a [model_list] that splits into
    two or more names, each empty after trimming, fails with the
    [BadModelNameError] for several model names, not with the one for no
    model names: the count is checked before emptiness. *)
Theorem multiplicity_before_emptiness :
  forall (address model_list : string) (w : process),
    is_valid_address address = true ->
    (2 <= length (split_models model_list))%nat ->
    Forall (fun m => m = "") (split_models model_list) ->
    handle address model_list w
    = (Raised (BadModelNameError
                 "Currently, only one model name can be provided at a time"),
       w)
    /\ fst (handle address model_list w)
       <> Raised (BadModelNameError "No model names provided").
Proof.
  intros a ml w H Hlen _. unfold handle_get_analysis. rewrite H. simpl.
  apply Nat.ltb_lt in Hlen. rewrite Hlen.
  split; [reflexivity | discriminate].
Qed.

(** What the [except] clause of the handler makes of its [try] block. *)
Lemma try_except_outcome {A : Type} (body : M A) (msg : string) (w : process) :
  fst (try_except body
         (fun e => bind (log_error msg e)
                        (fun _ => raise PassportAnalysisError)) w)
  = match fst (body w) with
    | Returned a => Returned a
    | Raised _ => Raised PassportAnalysisError
    end.
Proof.
  unfold try_except. destruct (body w) as [[a|e] w']; reflexivity.
Qed.

Lemma bind_read {B : Type} (k : list (string * string) -> M B) (w : process) :
  bind read_MODEL_ENDPOINTS k w = k (MODEL_ENDPOINTS w) w.
Proof. reflexivity. Qed.

Lemma bind_ret {A B : Type} (a : A) (k : A -> M B) (w : process) :
  bind (ret a) k w = k a w.
Proof. reflexivity. Qed.

Lemma bind_raise {A B : Type} (e : exception) (k : A -> M B) (w : process) :
  bind (raise e) k w = (Raised e, w).
Proof. reflexivity. Qed.

Lemma single_model_blank (ms : list string) :
  ms <> [] ->
  (1 <? length ms)%nat = false -> no_models ms = true -> ms = [""].
Proof.
  destruct ms as [|m [|m' rest]]; [contradiction| |discriminate].
  unfold no_models; simpl. intros _ _ H. apply String.eqb_eq in H. now subst.
Qed.

(** C10: the test [len(models) == 0] never holds: splitting any
    [model_list] on commas gives at least one name, so the guard of the
    "No model names provided" error is the test of the first name against
    the empty string, and the handler raises that error exactly when the
    address is valid and the sole name is empty. *)
Theorem empty_models_list_unreachable :
  forall model_list : string,
    (length (split_models model_list) =? 0)%nat = false
    /\ no_models (split_models model_list)
       = String.eqb (hd "" (split_models model_list)) ""
    /\ forall (address : string) (w : process),
         fst (handle address model_list w)
         = Raised (BadModelNameError "No model names provided")
         <-> is_valid_address address = true
             /\ split_models model_list = [""].
Proof.
  intro ml.
  pose proof (split_models_nonempty ml) as Hne.
  split; [|split].
  - destruct (split_models ml); [contradiction | reflexivity].
  - destruct (split_models ml); [contradiction | reflexivity].
  - intros a w. unfold handle_get_analysis. split.
    + destruct (is_valid_address a); simpl; [|discriminate].
      destruct (1 <? length (split_models ml))%nat eqn:Hmany;
        [discriminate|].
      destruct (no_models (split_models ml)) eqn:Hnone.
      { intros _. split; [reflexivity|].
        now apply single_model_blank. }
      rewrite bind_read.
      destruct (negb _); [rewrite bind_read; discriminate|].
      unfold checksum. destruct (to_checksum_address a);
        [rewrite bind_ret | rewrite bind_raise; discriminate].
      rewrite try_except_outcome.
      destruct (fst _); discriminate.
    + intros [-> ->]. reflexivity.
Qed.

(** ** Dispatch *)

Lemma dict_get_known {V : Type} (key : string) (d : list (string * V)) (v : V) :
  dict_get key d = Some v -> existsb (String.eqb key) (dict_keys d) = true.
Proof.
  induction d as [|[k x] d IH]; simpl; [discriminate|].
  rewrite (String.eqb_sym key k).
  destruct (String.eqb k key); simpl; auto.
Qed.

(** A valid address, a single known model name and a checksum bring the
    handler to its [try] block. *)
Lemma handle_dispatch (address model_list model endpoint c : string)
  (w : process) :
  is_valid_address address = true ->
  to_checksum_address address = Some c ->
  split_models model_list = [model] ->
  model <> "" ->
  dict_get model (MODEL_ENDPOINTS w) = Some endpoint ->
  handle address model_list w
  = try_except (analyse upstream address c [model])
      (fun e => bind (log_error "Error retrieving Passport analysis" e)
                     (fun _ => raise PassportAnalysisError)) w.
Proof.
  intros Hvalid Hsum Hsplit Hname Hknown.
  unfold handle_get_analysis. rewrite Hvalid, Hsplit.
  apply String.eqb_neq in Hname.
  unfold no_models; simpl. rewrite Hname. rewrite bind_read.
  unfold set_difference; simpl.
  rewrite (dict_get_known _ _ _ Hknown); simpl.
  unfold checksum. rewrite Hsum. now rewrite bind_ret.
Qed.

Lemma analyse_unanswered (address model endpoint c msg : string) (w : process) :
  dict_get model (MODEL_ENDPOINTS w) = Some endpoint ->
  upstream (model_request endpoint c) = ConnectionFailed msg ->
  analyse upstream address c [model] w
  = (Raised (RequestException msg), posted w (model_request endpoint c)).
Proof.
  intros Hknown Hup. unfold analyse, first_item.
  rewrite bind_ret, bind_read. unfold subscript. rewrite Hknown, bind_ret.
  unfold bind at 1. unfold requests_post, json_headers.
  unfold model_request in Hup. rewrite Hup. reflexivity.
Qed.

Lemma analyse_answered (address model endpoint c : string) (r : Response)
  (w : process) :
  dict_get model (MODEL_ENDPOINTS w) = Some endpoint ->
  upstream (model_request endpoint c) = Responded r ->
  analyse upstream address c [model] w
  = bind (raise_for_status r) (fun _ =>
      bind (response_json r) (fun response_body =>
        bind (print [PyStr "Response body:"; response_body]) (fun _ =>
          bind (py_get response_body "data" (PyDict [])) (fun data =>
            bind (py_get data "human_probability" (PyInt 0)) (fun score =>
              bind (set_scores [(model, score)]
                               new_PassportAnalysisDetailsModels)
                   (fun model_results =>
                      ret {| address := address;
                             details := {| models := model_results |} |}))))))
      (posted w (model_request endpoint c)).
Proof.
  intros Hknown Hup. unfold analyse, first_item.
  rewrite bind_ret, bind_read. unfold subscript. rewrite Hknown, bind_ret.
  unfold bind at 1. unfold requests_post, json_headers.
  unfold model_request in Hup. rewrite Hup. reflexivity.
Qed.

(** Whatever exception leaves the [try] block, the caller sees
    [PassportAnalysisError]; the exception itself goes to the log. *)
Lemma try_block_failure (address model_list model endpoint c : string)
  (w w' : process) (e : exception) :
  is_valid_address address = true ->
  to_checksum_address address = Some c ->
  split_models model_list = [model] ->
  model <> "" ->
  dict_get model (MODEL_ENDPOINTS w) = Some endpoint ->
  analyse upstream address c [model] w = (Raised e, w') ->
  handle address model_list w
  = (Raised PassportAnalysisError,
     snd (log_error "Error retrieving Passport analysis" e w')).
Proof.
  intros Hvalid Hsum Hsplit Hname Hknown Hrun.
  rewrite (handle_dispatch _ _ _ _ _ _ Hvalid Hsum Hsplit Hname Hknown).
  unfold try_except. rewrite Hrun. reflexivity.
Qed.

(** C5, amended: when the call to the model endpoint fails - no
    response, a response with a status from 400 to 599, or a body that
    is not JSON - the request fails with [PassportAnalysisError]: status
    500 and the fixed detail "Error retrieving Passport analysis", the
    same for every cause.  The cause reaches the log only. *)
Theorem dispatch_failure_is_generic :
  forall (address model_list model endpoint c : string) (w : process),
    is_valid_address address = true ->
    to_checksum_address address = Some c ->
    split_models model_list = [model] ->
    model <> "" ->
    dict_get model (MODEL_ENDPOINTS w) = Some endpoint ->
    dispatch_failure (upstream (model_request endpoint c)) ->
    fst (handle address model_list w) = Raised PassportAnalysisError
    /\ outward_status PassportAnalysisError = Some 500%Z
    /\ detail PassportAnalysisError = Some "Error retrieving Passport analysis"
    /\ exists cause,
         log_errors (snd (handle address model_list w))
         = (log_errors w
            ++ [("Error retrieving Passport analysis", cause)])%list.
Proof.
  intros a ml model endpoint c w Hvalid Hsum Hsplit Hname Hknown Hfail.
  assert (Hrun : exists cause,
             analyse upstream a c [model] w
             = (Raised cause, posted w (model_request endpoint c))).
  { inversion Hfail as [msg Hup | r Hstatus Hup | r Hbody Hup];
      symmetry in Hup.
    - exists (RequestException msg). now apply analyse_unanswered.
    - exists (HTTPError (http_status r) (text r)).
      rewrite (analyse_answered _ _ _ _ _ _ Hknown Hup).
      unfold raise_for_status.
      replace ((400 <=? http_status r)%Z && (http_status r <? 600)%Z)
        with true by (symmetry; apply andb_true_iff; split;
                      [apply Z.leb_le | apply Z.ltb_lt]; lia).
      reflexivity.
    - rewrite (analyse_answered _ _ _ _ _ _ Hknown Hup).
      unfold raise_for_status, response_json. rewrite Hbody.
      destruct (_ && _).
      + now exists (HTTPError (http_status r) (text r)).
      + now exists (JSONDecodeError (text r)). }
  destruct Hrun as [cause Hrun].
  rewrite (try_block_failure _ _ _ _ _ _ _ _ Hvalid Hsum Hsplit Hname Hknown
             Hrun).
  repeat split. now exists cause.
Qed.

(** C3, amended: when the upstream answers with a 2xx status and a JSON
    object in which ["data"] is absent, or is an object in which
    ["human_probability"] is absent, the request succeeds and reports
    the score 0 for the requested model. *)
Theorem absent_human_probability_scores_zero :
  forall (address model_list model endpoint c : string) (w : process)
         (r : Response) (body : pyvalue),
    is_valid_address address = true ->
    to_checksum_address address = Some c ->
    split_models model_list = [model] ->
    In model schema_fields ->
    dict_get model (MODEL_ENDPOINTS w) = Some endpoint ->
    upstream (model_request endpoint c) = Responded r ->
    (200 <= http_status r < 300)%Z ->
    decoded r = Some body ->
    human_probability_absent body ->
    exists response,
      fst (handle address model_list w) = Returned response
      /\ reported_score model response = Some (PyInt 0).
Proof.
  intros a ml model endpoint c w r body
         Hvalid Hsum Hsplit Hfield Hknown Hup Hstatus Hbody Habsent.
  assert (Hname : model <> "").
  { intros ->. simpl in Hfield. intuition discriminate. }
  rewrite (handle_dispatch _ _ _ _ _ _ Hvalid Hsum Hsplit Hname Hknown).
  unfold try_except.
  rewrite (analyse_answered _ _ _ _ _ _ Hknown Hup).
  unfold raise_for_status.
  replace ((400 <=? http_status r)%Z && (http_status r <? 600)%Z)
    with false by (symmetry; apply andb_false_iff; left;
                   apply Z.leb_gt; lia).
  rewrite bind_ret. unfold response_json. rewrite Hbody, bind_ret.
  unfold bind at 1. cbn [print].
  assert (Hscore : forall w0,
             bind (py_get body "data" (PyDict []))
                  (fun data => py_get data "human_probability" (PyInt 0)) w0
             = (Returned (PyInt 0), w0)).
  { intro w0. destruct Habsent as [items [-> [Hdata | [data [Hdata Hprob]]]]];
      unfold py_get at 1; rewrite Hdata, bind_ret.
    - reflexivity.
    - unfold py_get. now rewrite Hprob. }
  unfold bind in Hscore |- *.
  match goal with
  | |- context [py_get body "data" (PyDict []) ?w0] =>
      specialize (Hscore w0); destruct (py_get body "data" (PyDict []) w0)
        as [[data|e] w1]
  end.
  - rewrite Hscore.
    simpl in Hfield.
    destruct Hfield as [<- | [<- | [<- | []]]];
      (eexists; split; [reflexivity | reflexivity]).
  - discriminate.
Qed.

(** ** What is posted and what is echoed *)

Lemma silent_ret {A : Type} (P : A -> Prop) (a : A) : P a -> silent P (ret a).
Proof. intros H w. split; [reflexivity|]. simpl. now intros ? [= <-]. Qed.

Lemma silent_raise {A : Type} (P : A -> Prop) (e : exception) :
  silent P (raise e).
Proof. intros w. split; [reflexivity | discriminate]. Qed.

Lemma silent_bind {A B : Type} (Q : A -> Prop) (P : B -> Prop) (m : M A)
  (k : A -> M B) :
  silent Q m -> (forall a, silent P (k a)) -> silent P (bind m k).
Proof.
  intros Hm Hk w. unfold bind. destruct (Hm w) as [Hout _].
  destruct (m w) as [[a|e] w']; simpl in *.
  - destruct (Hk a w') as [Hout' Hret]. split; [congruence | exact Hret].
  - split; [exact Hout | discriminate].
Qed.

Lemma silent_any {A : Type} (m : M A) :
  (forall w, outbound (snd (m w)) = outbound w) -> silent anything m.
Proof. intros H w. split; [apply H | now intros]. Qed.

Lemma silent_print (args : list pyvalue) : silent anything (print args).
Proof. now apply silent_any. Qed.

Lemma silent_log_error (msg : string) (e : exception) :
  silent anything (log_error msg e).
Proof. now apply silent_any. Qed.

Lemma silent_py_get (v : pyvalue) (key : string) (default : pyvalue) :
  silent anything (py_get v key default).
Proof. apply silent_any. intro w. now destruct v. Qed.

Lemma silent_raise_for_status (r : Response) :
  silent anything (raise_for_status r).
Proof.
  apply silent_any. intro w. unfold raise_for_status. now destruct (_ && _).
Qed.

Lemma silent_response_json (r : Response) : silent anything (response_json r).
Proof.
  apply silent_any. intro w. unfold response_json. now destruct (decoded r).
Qed.

Lemma silent_setattr (o : PassportAnalysisDetailsModels) (name : string)
  (value : pyvalue) : silent anything (setattr o name value).
Proof.
  apply silent_any. intro w. unfold setattr.
  repeat match goal with
         | |- context [if ?b then _ else _] => destruct b
         end; reflexivity.
Qed.

Lemma silent_set_scores (items : list (string * pyvalue))
  (o : PassportAnalysisDetailsModels) : silent anything (set_scores items o).
Proof.
  revert o. induction items as [|[name score] rest IH]; intro o; simpl.
  - now apply silent_ret.
  - eapply silent_bind; [apply silent_setattr | intro; apply IH].
Qed.

(** What follows the call in the [try] block posts nothing more, and a
    response it returns carries the address the handler was given. *)
Lemma silent_after_post (a model : string) (r : Response) :
  silent (fun response => address response = a)
    (bind (raise_for_status r) (fun _ =>
      bind (response_json r) (fun response_body =>
        bind (print [PyStr "Response body:"; response_body]) (fun _ =>
          bind (py_get response_body "data" (PyDict [])) (fun data =>
            bind (py_get data "human_probability" (PyInt 0)) (fun score =>
              bind (set_scores [(model, score)]
                               new_PassportAnalysisDetailsModels)
                   (fun model_results =>
                      ret {| address := a;
                             details := {| models := model_results |} |}))))))).
Proof.
  eapply silent_bind; [apply silent_raise_for_status | intro].
  eapply silent_bind; [apply silent_response_json | intro].
  eapply silent_bind; [apply silent_print | intro].
  eapply silent_bind; [apply silent_py_get | intro].
  eapply silent_bind; [apply silent_py_get | intro].
  eapply silent_bind; [apply silent_set_scores | intro].
  now apply silent_ret.
Qed.

(** C1, amended: for a request with a valid address, every call the
    handler posts - it posts at most one - carries the checksum form of
    the address in its JSON body, and a successful response echoes the
    address as the caller wrote it; the handler has then posted exactly
    one call. *)
Theorem checksum_posted_address_echoed :
  forall (addr model_list c : string) (w : process),
    is_valid_address addr = true ->
    to_checksum_address addr = Some c ->
    (exists posts,
        outbound (snd (handle addr model_list w)) = (outbound w ++ posts)%list
        /\ Forall (fun request => json request = PyDict [("address", PyStr c)])
                  posts
        /\ (length posts <= 1)%nat)
    /\ forall response,
         fst (handle addr model_list w) = Returned response ->
         address response = addr
         /\ exists endpoint,
              outbound (snd (handle addr model_list w))
              = (outbound w ++ [model_request endpoint c])%list.
Proof.
  intros a ml c w Hvalid Hsum.
  assert (unsent : forall result : outcome PassportAnalysisResponse * process,
             outbound (snd result) = outbound w ->
             (forall response, fst result <> Returned response) ->
             (exists posts,
                 outbound (snd result) = (outbound w ++ posts)%list
                 /\ Forall (fun request =>
                              json request = PyDict [("address", PyStr c)])
                           posts
                 /\ (length posts <= 1)%nat)
             /\ forall response,
                  fst result = Returned response ->
                  address response = a
                  /\ exists endpoint,
                       outbound (snd result)
                       = (outbound w ++ [model_request endpoint c])%list).
  { intros result Hout Hfail. split.
    - exists []. rewrite app_nil_r. repeat split; auto.
    - intros response H. now destruct (Hfail response). }
  assert (sent : forall (result : outcome PassportAnalysisResponse * process)
                        endpoint,
             outbound (snd result)
             = (outbound w ++ [model_request endpoint c])%list ->
             (forall response,
                 fst result = Returned response -> address response = a) ->
             (exists posts,
                 outbound (snd result) = (outbound w ++ posts)%list
                 /\ Forall (fun request =>
                              json request = PyDict [("address", PyStr c)])
                           posts
                 /\ (length posts <= 1)%nat)
             /\ forall response,
                  fst result = Returned response ->
                  address response = a
                  /\ exists endpoint,
                       outbound (snd result)
                       = (outbound w ++ [model_request endpoint c])%list).
  { intros result endpoint Hout Hecho. split.
    - exists [model_request endpoint c]. repeat split; auto.
    - intros response H. split; [now apply Hecho | now exists endpoint]. }
  unfold handle_get_analysis. rewrite Hvalid. cbn [negb].
  pose proof (split_models_nonempty ml) as Hne.
  destruct (split_models ml) as [|model [|model' rest]];
    [contradiction | | apply unsent; [reflexivity | discriminate]].
  cbn [length Nat.ltb Nat.leb]. unfold no_models. cbn [length Nat.eqb orb].
  destruct (String.eqb model ""); [apply unsent; [reflexivity|discriminate]|].
  rewrite bind_read.
  destruct (negb _);
    [rewrite bind_read; apply unsent; [reflexivity | discriminate]|].
  unfold checksum. rewrite Hsum, bind_ret. unfold try_except.
  destruct (dict_get model (MODEL_ENDPOINTS w)) as [endpoint|] eqn:Hknown.
  - destruct (upstream (model_request endpoint c)) as [msg|r] eqn:Hup.
    + rewrite (analyse_unanswered _ _ _ _ _ _ Hknown Hup).
      apply (sent _ endpoint); [reflexivity | discriminate].
    + rewrite (analyse_answered _ _ _ _ _ _ Hknown Hup).
      destruct (silent_after_post a model r (posted w (model_request endpoint c)))
        as [Hout Hecho].
      match goal with
      | |- context [match ?run with _ => _ end] =>
          destruct run as [[response|e] w']
      end; simpl in Hout, Hecho.
      * apply (sent _ endpoint); [exact Hout|].
        simpl. intros ? [= <-]. now apply Hecho.
      * apply (sent _ endpoint); [exact Hout | discriminate].
  - unfold analyse, first_item. rewrite bind_ret, bind_read.
    unfold subscript. rewrite Hknown, bind_raise.
    apply unsent; [reflexivity | discriminate].
Qed.

End Properties.

(** * The sample deployment *)

Example serve_scores_42 :
  exists response,
    fst (serve human_probability_42 checksummed_address "ethereum"
               (start sample_settings)) = Returned response
    /\ reported_score "ethereum" response = Some (PyInt 42)
    /\ reported_score "nft" response = None.
Proof. eexists. split; [vm_compute; reflexivity | split; reflexivity]. Qed.

Example serve_unknown_model :
  fst (serve human_probability_42 checksummed_address "bogus"
             (start sample_settings))
  = Raised (BadModelNameError
              "Invalid model name(s): bogus. Must be one of ethereum, nft, zksync").
Proof. vm_compute. reflexivity. Qed.

Example serve_two_models :
  fst (serve human_probability_42 checksummed_address "ethereum,nft"
             (start sample_settings))
  = Raised (BadModelNameError
              "Currently, only one model name can be provided at a time").
Proof. vm_compute. reflexivity. Qed.

Lemma substring_all (s : string) : substring 0 (String.length s) s = s.
Proof. induction s as [|ch s IH]; simpl; [reflexivity | now rewrite IH]. Qed.

(** In the sample deployment the checksum of a valid address is always
    defined: [to_checksum_address] raises on no address that passed
    [is_valid_address]. *)
Lemma valid_address_has_checksum (a : string) :
  Registry.is_valid_address a = true ->
  exists c, EthUtils.to_checksum_address a = Some c.
Proof.
  unfold Registry.is_valid_address.
  destruct (String.eqb a (EthUtils.lower a)) eqn:Hlow.
  - apply String.eqb_eq in Hlow. intro Hhex.
    assert (Hnorm : exists n, EthUtils.to_normalized_address a = Some n).
    { unfold EthUtils.to_normalized_address. rewrite <- Hlow.
      unfold EthUtils.add_0x_prefix.
      destruct (EthUtils.is_0x_prefixed a) eqn:Hpre.
      - rewrite <- Hlow, Hhex. now eexists.
      - change (EthUtils.lower ("0x" ++ a))
          with (String "0" (String "x" (EthUtils.lower a))).
        rewrite <- Hlow.
        assert (Hhex' : EthUtils.is_hex_address (String "0" (String "x" a))
                        = true).
        { unfold EthUtils.is_hex_address, EthUtils.remove_0x_prefix in *.
          rewrite Hpre in Hhex. cbn [EthUtils.is_0x_prefixed Ascii.eqb].
          cbn. rewrite Nat.sub_0_r, substring_all. exact Hhex. }
        rewrite Hhex'. now eexists. }
    destruct Hnorm as [n Hnorm].
    unfold EthUtils.to_checksum_address. rewrite Hnorm. now eexists.
  - unfold EthUtils.is_checksum_address. intro H.
    apply andb_true_iff in H as [_ H].
    destruct (EthUtils.to_checksum_address a) as [c|];
      [now exists c | discriminate].
Qed.

(** C1 fails as stated: for the valid lower-case address the handler
    posts the checksum form but answers with the lower-case text. *)
Lemma echoed_address_is_not_checksummed :
  Registry.is_valid_address lowercase_address = true
  /\ EthUtils.to_checksum_address lowercase_address = Some checksummed_address
  /\ exists response,
       fst (serve human_probability_42 lowercase_address "ethereum"
                  (start sample_settings)) = Returned response
       /\ address response = lowercase_address
       /\ address response <> checksummed_address.
Proof.
  split; [vm_compute; reflexivity|].
  split; [vm_compute; reflexivity|].
  eexists. split; [vm_compute; reflexivity|].
  split; [reflexivity|].
  apply String.eqb_neq. vm_compute. reflexivity.
Qed.

Lemma checksum_posted_address_echoed_witness :
  Registry.is_valid_address lowercase_address = true
  /\ EthUtils.to_checksum_address lowercase_address = Some checksummed_address
  /\ forall response,
       fst (serve human_probability_42 lowercase_address "ethereum"
                  (start sample_settings)) = Returned response ->
       address response = lowercase_address
       /\ exists endpoint,
            outbound (snd (serve human_probability_42 lowercase_address
                                 "ethereum" (start sample_settings)))
            = (outbound (start sample_settings)
               ++ [model_request endpoint checksummed_address])%list.
Proof.
  split; [vm_compute; reflexivity|].
  split; [vm_compute; reflexivity|].
  apply (checksum_posted_address_echoed
           Registry.is_valid_address EthUtils.to_checksum_address
           human_probability_42 lowercase_address "ethereum"
           checksummed_address (start sample_settings));
    vm_compute; reflexivity.
Defined.

(** C2 fails as stated: with an invalid address and two model names the
    error is [InvalidAddressException], not [BadModelNameError]. *)
Lemma invalid_address_wins_over_two_models :
  Registry.is_valid_address "not-an-address" = false
  /\ split_models "ethereum,nft" = ["ethereum"; "nft"]
  /\ fst (serve human_probability_42 "not-an-address" "ethereum,nft"
                (start sample_settings)) = Raised InvalidAddressException
  /\ forall d,
       fst (serve human_probability_42 "not-an-address" "ethereum,nft"
                  (start sample_settings)) <> Raised (BadModelNameError d).
Proof.
  repeat split; try (vm_compute; reflexivity).
  intro d. vm_compute. discriminate.
Qed.

Lemma address_checked_before_models_witness :
  Registry.is_valid_address "not-an-address" = false
  /\ no_models (split_models "") = true
  /\ fst (serve human_probability_42 "not-an-address" ""
                (start sample_settings)) = Raised InvalidAddressException.
Proof.
  split; [vm_compute; reflexivity|].
  split; [vm_compute; reflexivity|].
  apply (address_checked_before_models
           Registry.is_valid_address EthUtils.to_checksum_address
           human_probability_42 "not-an-address" "" (start sample_settings)).
  - vm_compute; reflexivity.
  - right. vm_compute; reflexivity.
Defined.

(** C3 fails as stated: a 200 answer whose ["data"] is [null] holds no
    number at [data.human_probability], and the request fails with
    [PassportAnalysisError]. *)
Lemma null_data_is_an_error :
  (forall request,
      exists r body,
        null_data request = Responded r
        /\ (200 <= http_status r < 300)%Z
        /\ decoded r = Some body
        /\ has_human_probability body = false)
  /\ fst (serve null_data lowercase_address "ethereum"
                (start sample_settings)) = Raised PassportAnalysisError.
Proof.
  split; [|vm_compute; reflexivity].
  intro request. do 2 eexists.
  split; [reflexivity|]. split; [simpl; lia|]. split; reflexivity.
Qed.

(** A string where a number is expected is passed on as the score. *)
Example string_score_is_passed_on :
  exists response,
    fst (serve (answering 200 "{}"
                  (Some (PyDict [("data",
                                  PyDict [("human_probability",
                                           PyStr "high")])])))
               lowercase_address "ethereum" (start sample_settings))
    = Returned response
    /\ reported_score "ethereum" response = Some (PyStr "high").
Proof. eexists. split; [vm_compute; reflexivity | reflexivity]. Qed.

Lemma absent_human_probability_scores_zero_witness :
  exists response,
    fst (serve empty_object lowercase_address "ethereum"
               (start sample_settings)) = Returned response
    /\ reported_score "ethereum" response = Some (PyInt 0).
Proof.
  apply (absent_human_probability_scores_zero
           Registry.is_valid_address EthUtils.to_checksum_address
           empty_object lowercase_address "ethereum" "ethereum"
           "http://models.internal/ethereum" checksummed_address
           (start sample_settings)
           {| http_status := 200; text := "{}"; decoded := Some (PyDict []) |}
           (PyDict [])).
  - vm_compute; reflexivity.
  - vm_compute; reflexivity.
  - vm_compute; reflexivity.
  - simpl. now left.
  - reflexivity.
  - reflexivity.
  - simpl. lia.
  - reflexivity.
  - exists []. split; [reflexivity | now left].
Defined.

Lemma invalid_address_rejected_witness :
  Registry.is_valid_address "0x5aAeb6053f3e94c9b9a09f33669435e7ef1beaed"
  = false
  /\ serve human_probability_42 "0x5aAeb6053f3e94c9b9a09f33669435e7ef1beaed"
            "ethereum" (start sample_settings)
     = (Raised InvalidAddressException, start sample_settings).
Proof.
  split; [vm_compute; reflexivity|].
  apply (invalid_address_rejected
           Registry.is_valid_address EthUtils.to_checksum_address
           human_probability_42 "0x5aAeb6053f3e94c9b9a09f33669435e7ef1beaed"
           "ethereum" (start sample_settings)).
  vm_compute; reflexivity.
Defined.

Lemma dispatch_failure_is_generic_witness :
  dispatch_failure
    (service_unavailable
       (model_request "http://models.internal/ethereum" checksummed_address))
  /\ fst (serve service_unavailable lowercase_address "ethereum"
                (start sample_settings)) = Raised PassportAnalysisError.
Proof.
  assert (failing : dispatch_failure
            (service_unavailable
               (model_request "http://models.internal/ethereum"
                              checksummed_address))).
  { apply error_status. simpl. lia. }
  split; [exact failing|].
  apply (dispatch_failure_is_generic
           Registry.is_valid_address EthUtils.to_checksum_address
           service_unavailable lowercase_address "ethereum" "ethereum"
           "http://models.internal/ethereum" checksummed_address
           (start sample_settings)).
  - vm_compute; reflexivity.
  - vm_compute; reflexivity.
  - vm_compute; reflexivity.
  - discriminate.
  - reflexivity.
  - exact failing.
Defined.

Example unreachable_is_generic :
  serve unreachable lowercase_address "zksync" (start sample_settings)
  = (Raised PassportAnalysisError,
     {| MODEL_ENDPOINTS := module_endpoints sample_settings;
        stdout := [];
        log_errors := [("Error retrieving Passport analysis",
                        RequestException "Connection refused")];
        outbound := [model_request "http://models.internal/zksync"
                                   checksummed_address] |}).
Proof. vm_compute. reflexivity. Qed.

Lemma blank_model_list_rejected_witness :
  Registry.is_valid_address checksummed_address = true
  /\ serve human_probability_42 checksummed_address " "
            (start sample_settings)
     = (Raised (BadModelNameError "No model names provided"),
        start sample_settings).
Proof.
  split; [vm_compute; reflexivity|].
  apply (blank_model_list_rejected
           Registry.is_valid_address EthUtils.to_checksum_address
           human_probability_42 checksummed_address " "
           (start sample_settings)).
  - vm_compute; reflexivity.
  - now right.
Defined.

Lemma multiplicity_before_emptiness_witness :
  split_models "," = [""; ""]
  /\ serve human_probability_42 checksummed_address ","
            (start sample_settings)
     = (Raised (BadModelNameError
                  "Currently, only one model name can be provided at a time"),
        start sample_settings).
Proof.
  split; [reflexivity|].
  apply (multiplicity_before_emptiness
           Registry.is_valid_address EthUtils.to_checksum_address
           human_probability_42 checksummed_address ","
           (start sample_settings)).
  - vm_compute; reflexivity.
  - simpl. lia.
  - repeat constructor.
Defined.

(** * The rest of the module: the endpoint and the paths of the handler *)

Section Endpoint.

Variable is_valid_address : string -> bool.
Variable to_checksum_address : string -> option string.
Variable upstream : post_request -> post_result.

(** [def get_analysis(request, address, model_list)], the function
    routed at [GET /analysis/{address}]: the request object is not
    looked at. *)
Definition get_analysis {Request : Type} (request : Request)
  (address model_list : string) : M PassportAnalysisResponse :=
  handle_get_analysis is_valid_address to_checksum_address upstream
                      address model_list.

(** A worker serving requests one after the other in one process: the
    outcomes, first request first, and the state it ends in. *)
Fixpoint serve_requests {Request : Type}
  (requests : list (Request * string * string)) (w : process)
  : list (outcome PassportAnalysisResponse) * process :=
  match requests with
  | [] => ([], w)
  | (request, address, model_list) :: rest =>
      let (result, w') := get_analysis request address model_list w in
      let (results, w'') := serve_requests rest w' in
      (result :: results, w'')
  end.

End Endpoint.

(** The state after [print("Response body:", body)]. *)
Definition printed (w : process) (body : pyvalue) : process :=
  {| MODEL_ENDPOINTS := MODEL_ENDPOINTS w;
     stdout := stdout w ++ [[PyStr "Response body:"; body]];
     log_errors := log_errors w;
     outbound := outbound w |}.

(** The state after the [except] clause has logged [cause]. *)
Definition logged (w : process) (cause : exception) : process :=
  {| MODEL_ENDPOINTS := MODEL_ENDPOINTS w;
     stdout := stdout w;
     log_errors :=
       log_errors w ++ [("Error retrieving Passport analysis", cause)];
     outbound := outbound w |}.

(** What [response_body.get("data", {}).get("human_probability", 0)]
    evaluates to, as a function of the decoded body alone. *)
Definition score_of (body : pyvalue) : outcome pyvalue :=
  match body with
  | PyDict items =>
      match dict_get "data" items with
      | None => Returned (PyInt 0)
      | Some (PyDict data) =>
          Returned (match dict_get "human_probability" data with
                    | Some v => v
                    | None => PyInt 0
                    end)
      | Some other =>
          Raised (AttributeError
                    ("'" ++ type_name other ++ "' object has no attribute 'get'"))
      end
  | other =>
      Raised (AttributeError
                ("'" ++ type_name other ++ "' object has no attribute 'get'"))
  end.

(** The [model_results] of a request for [model] that scored [v];
    [None] when [model] is not a field of the schema. *)
Definition scored (model : string) (v : pyvalue)
  : option PassportAnalysisDetailsModels :=
  let entry := Some (PyDict [("score", v)]) in
  if String.eqb model "ethereum" then
    Some {| ethereum := entry; nft := None; zksync := None |}
  else if String.eqb model "nft" then
    Some {| ethereum := None; nft := entry; zksync := None |}
  else if String.eqb model "zksync" then
    Some {| ethereum := None; nft := None; zksync := entry |}
  else None.

(** A string of white space only. *)
Definition blank (s : string) : bool :=
  forallb PyStr.isspace (list_ascii_of_string s).

(** Number of commas of a [model_list]. *)
Definition commas (model_list : string) : nat :=
  count_occ ascii_dec (list_ascii_of_string model_list) ","%char.

Section Paths.

Variable is_valid_address : string -> bool.
Variable to_checksum_address : string -> option string.
Variable upstream : post_request -> post_result.

(** The paths through the [try] block and its [except] clause, for the
    model [model] served at [endpoint] and the checksum [c]: each
    constructor is one way the block ends, with the outcome and the
    state it leaves. *)
Inductive analysed (a model endpoint c : string) (w : process)
  : outcome PassportAnalysisResponse * process -> Prop :=
| analysed_unanswered (msg : string) :
    upstream (model_request endpoint c) = ConnectionFailed msg ->
    analysed a model endpoint c w
      (Raised PassportAnalysisError,
       logged (posted w (model_request endpoint c)) (RequestException msg))
| analysed_error_status (r : Response) :
    upstream (model_request endpoint c) = Responded r ->
    (400 <= http_status r < 600)%Z ->
    analysed a model endpoint c w
      (Raised PassportAnalysisError,
       logged (posted w (model_request endpoint c))
              (HTTPError (http_status r) (text r)))
| analysed_not_json (r : Response) :
    upstream (model_request endpoint c) = Responded r ->
    ~ (400 <= http_status r < 600)%Z ->
    decoded r = None ->
    analysed a model endpoint c w
      (Raised PassportAnalysisError,
       logged (posted w (model_request endpoint c)) (JSONDecodeError (text r)))
| analysed_bad_shape (r : Response) (body : pyvalue) (e : exception) :
    upstream (model_request endpoint c) = Responded r ->
    ~ (400 <= http_status r < 600)%Z ->
    decoded r = Some body ->
    score_of body = Raised e ->
    analysed a model endpoint c w
      (Raised PassportAnalysisError,
       logged (printed (posted w (model_request endpoint c)) body) e)
| analysed_no_field (r : Response) (body v : pyvalue) :
    upstream (model_request endpoint c) = Responded r ->
    ~ (400 <= http_status r < 600)%Z ->
    decoded r = Some body ->
    score_of body = Returned v ->
    scored model v = None ->
    analysed a model endpoint c w
      (Raised PassportAnalysisError,
       logged (printed (posted w (model_request endpoint c)) body)
              (ValueError
                 ("'PassportAnalysisDetailsModels' object has no field '"
                  ++ model ++ "'")))
| analysed_scored (r : Response) (body v : pyvalue)
    (model_results : PassportAnalysisDetailsModels) :
    upstream (model_request endpoint c) = Responded r ->
    ~ (400 <= http_status r < 600)%Z ->
    decoded r = Some body ->
    score_of body = Returned v ->
    scored model v = Some model_results ->
    analysed a model endpoint c w
      (Returned {| address := a; details := {| models := model_results |} |},
       printed (posted w (model_request endpoint c)) body).

(** The paths through [handle_get_analysis]. *)
Inductive served (a model_list : string) (w : process)
  : outcome PassportAnalysisResponse * process -> Prop :=
| served_invalid_address :
    is_valid_address a = false ->
    served a model_list w (Raised InvalidAddressException, w)
| served_many_models :
    is_valid_address a = true ->
    (1 < length (split_models model_list))%nat ->
    served a model_list w
      (Raised (BadModelNameError
                 "Currently, only one model name can be provided at a time"),
       w)
| served_no_model :
    is_valid_address a = true ->
    split_models model_list = [""] ->
    served a model_list w
      (Raised (BadModelNameError "No model names provided"), w)
| served_unknown_model (model : string) :
    is_valid_address a = true ->
    split_models model_list = [model] ->
    model <> "" ->
    dict_get model (MODEL_ENDPOINTS w) = None ->
    served a model_list w
      (Raised (BadModelNameError
                 ("Invalid model name(s): " ++ model ++ ". Must be one of "
                  ++ PyStr.join ", " (dict_keys (MODEL_ENDPOINTS w)))),
       w)
| served_no_checksum (model endpoint : string) :
    is_valid_address a = true ->
    split_models model_list = [model] ->
    model <> "" ->
    dict_get model (MODEL_ENDPOINTS w) = Some endpoint ->
    to_checksum_address a = None ->
    served a model_list w
      (Raised (ValueError "Unknown format, attempted to normalize to hex"), w)
| served_dispatched (model endpoint c : string)
    (result : outcome PassportAnalysisResponse * process) :
    is_valid_address a = true ->
    split_models model_list = [model] ->
    model <> "" ->
    dict_get model (MODEL_ENDPOINTS w) = Some endpoint ->
    to_checksum_address a = Some c ->
    analysed a model endpoint c w result ->
    served a model_list w result.

End Paths.

Lemma dict_get_unknown {V : Type} (key : string) (d : list (string * V)) :
  dict_get key d = None -> existsb (String.eqb key) (dict_keys d) = false.
Proof.
  induction d as [|[k x] d IH]; simpl; [reflexivity|].
  rewrite (String.eqb_sym key k).
  destruct (String.eqb k key); simpl; [discriminate | exact IH].
Qed.

Lemma score_of_run {B : Type} (body : pyvalue) (k : pyvalue -> M B)
  (w : process) :
  bind (py_get body "data" (PyDict []))
       (fun data => bind (py_get data "human_probability" (PyInt 0)) k) w
  = match score_of body with
    | Returned v => k v w
    | Raised e => (Raised e, w)
    end.
Proof.
  destruct body as [| | | | |items|items]; try reflexivity.
  unfold score_of, py_get at 1. rewrite bind_ret.
  destruct (dict_get "data" items) as [[| | | | |xs|data]|]; reflexivity.
Qed.

Lemma set_scores_run (model : string) (v : pyvalue) (w : process) :
  set_scores [(model, v)] new_PassportAnalysisDetailsModels w
  = match scored model v with
    | Some model_results => (Returned model_results, w)
    | None =>
        (Raised (ValueError
                   ("'PassportAnalysisDetailsModels' object has no field '"
                    ++ model ++ "'")), w)
    end.
Proof.
  unfold set_scores, scored, setattr, new_PassportAnalysisDetailsModels.
  cbn [ethereum nft zksync].
  repeat match goal with
         | |- context [if ?b then _ else _] => destruct b
         end; reflexivity.
Qed.

Section Coverage.

Variable is_valid_address : string -> bool.
Variable to_checksum_address : string -> option string.
Variable upstream : post_request -> post_result.

Local Abbreviation handle :=
  (handle_get_analysis is_valid_address to_checksum_address upstream).

Lemma status_test (r : Response) :
  ((400 <=? http_status r)%Z && (http_status r <? 600)%Z = true
   /\ (400 <= http_status r < 600)%Z)
  \/ ((400 <=? http_status r)%Z && (http_status r <? 600)%Z = false
      /\ ~ (400 <= http_status r < 600)%Z).
Proof.
  destruct (400 <=? http_status r)%Z eqn:Hlo, (http_status r <? 600)%Z eqn:Hhi;
    simpl; try apply Z.leb_le in Hlo; try apply Z.leb_gt in Hlo;
    try apply Z.ltb_lt in Hhi; try apply Z.ltb_ge in Hhi;
    [left | right | right | right]; split; auto; lia.
Qed.

(** The [try] block with its [except] clause follows one of the paths
    of [analysed]. *)
Lemma try_block_analysed (a model endpoint c : string) (w : process) :
  dict_get model (MODEL_ENDPOINTS w) = Some endpoint ->
  analysed upstream a model endpoint c w
    (try_except (analyse upstream a c [model])
       (fun e => bind (log_error "Error retrieving Passport analysis" e)
                      (fun _ => raise PassportAnalysisError)) w).
Proof.
  intro Hknown. unfold try_except.
  destruct (upstream (model_request endpoint c)) as [msg|r] eqn:Hup.
  - rewrite (analyse_unanswered _ _ _ _ _ _ _ Hknown Hup).
    now apply analysed_unanswered.
  - rewrite (analyse_answered _ _ _ _ _ _ _ Hknown Hup).
    unfold raise_for_status.
    destruct (status_test r) as [[-> Hstatus] | [-> Hstatus]].
    { rewrite bind_raise. now apply analysed_error_status. }
    rewrite bind_ret. unfold response_json.
    destruct (decoded r) as [body|] eqn:Hbody.
    2:{ rewrite bind_raise. now apply analysed_not_json. }
    rewrite bind_ret. unfold bind at 1. cbn [print].
    fold (printed (posted w (model_request endpoint c)) body).
    rewrite score_of_run.
    destruct (score_of body) as [v|e] eqn:Hscore.
    2:{ now apply analysed_bad_shape with (r := r). }
    unfold bind at 1. rewrite set_scores_run.
    destruct (scored model v) as [model_results|] eqn:Hfield.
    + now apply analysed_scored with (r := r) (v := v).
    + now apply analysed_no_field with (r := r) (v := v).
Qed.

(** The handler follows one of the paths of [served]. *)
Lemma handle_served (a model_list : string) (w : process) :
  served is_valid_address to_checksum_address upstream a model_list w
         (handle a model_list w).
Proof.
  destruct (is_valid_address a) eqn:Hvalid.
  2:{ unfold handle_get_analysis. rewrite Hvalid.
      now apply served_invalid_address. }
  pose proof (split_models_nonempty model_list) as Hne.
  destruct (split_models model_list) as [|model [|model' rest]] eqn:Hsplit;
    [contradiction | |].
  2:{ unfold handle_get_analysis. rewrite Hvalid, Hsplit.
      apply served_many_models; [assumption|]. rewrite Hsplit. simpl. lia. }
  destruct (String.eqb model "") eqn:Hname.
  { apply String.eqb_eq in Hname. subst model.
    unfold handle_get_analysis. rewrite Hvalid, Hsplit.
    now apply served_no_model. }
  pose proof Hname as Hname'. apply String.eqb_neq in Hname'.
  destruct (dict_get model (MODEL_ENDPOINTS w)) as [endpoint|] eqn:Hknown.
  - destruct (to_checksum_address a) as [c|] eqn:Hsum.
    + rewrite (handle_dispatch _ _ _ _ _ _ _ _ _
                 Hvalid Hsum Hsplit Hname' Hknown).
      apply served_dispatched with (model := model) (endpoint := endpoint)
                                   (c := c); auto.
      now apply try_block_analysed.
    + unfold handle_get_analysis. rewrite Hvalid, Hsplit.
      unfold no_models; simpl. rewrite Hname, bind_read.
      unfold set_difference; simpl.
      rewrite (dict_get_known _ _ _ Hknown); simpl.
      unfold checksum. rewrite Hsum, bind_raise.
      now apply served_no_checksum with (model := model) (endpoint := endpoint).
  - unfold handle_get_analysis. rewrite Hvalid, Hsplit.
    unfold no_models; simpl. rewrite Hname, bind_read.
    unfold set_difference; simpl.
    rewrite (dict_get_unknown _ _ Hknown); simpl.
    rewrite bind_read.
    now apply served_unknown_model.
Qed.

Ltac by_paths a ml w :=
  generalize (handle_served a ml w);
  generalize (handle_get_analysis is_valid_address to_checksum_address
                                  upstream a ml w);
  let result := fresh "result" in
  let path := fresh "path" in
  intros result path;
  destruct path as
    [ Hvalid
    | Hvalid Hmany
    | Hvalid Hsplit
    | model Hvalid Hsplit Hname Hknown
    | model endpoint Hvalid Hsplit Hname Hknown Hsum
    | model endpoint c result Hvalid Hsplit Hname Hknown Hsum Hrun ].

Ltac by_try_paths Hrun :=
  destruct Hrun as
    [ msg Hup
    | r Hup Hstatus
    | r Hup Hstatus Hbody
    | r body e Hup Hstatus Hbody Hscore
    | r body v Hup Hstatus Hbody Hscore Hfield
    | r body v model_results Hup Hstatus Hbody Hscore Hfield ].

Lemma split_length (sep : ascii) (s : string) :
  length (PyStr.split sep s)
  = S (count_occ ascii_dec (list_ascii_of_string s) sep).
Proof.
  induction s as [|ch s IH]; simpl; [reflexivity|].
  destruct (Ascii.eqb ch sep) eqn:E.
  - apply Ascii.eqb_eq in E. subst ch.
    destruct (ascii_dec sep sep); [|contradiction]. simpl. now rewrite IH.
  - apply Ascii.eqb_neq in E.
    destruct (ascii_dec ch sep); [contradiction|].
    destruct (PyStr.split sep s); simpl in *; [discriminate | exact IH].
Qed.

Lemma split_models_length (model_list : string) :
  length (split_models model_list) = S (commas model_list).
Proof. unfold split_models, commas. now rewrite length_map, split_length. Qed.

(** ** Model names *)

(** X1: with a valid address, a single non-empty model name that is not
    a key of [MODEL_ENDPOINTS] is refused with the 400
    [BadModelNameError] that names it and lists the keys in the order of
    the dict; the process state is untouched, nothing is posted. *)
Theorem unknown_model_rejected :
  forall (address model_list model : string) (w : process),
    is_valid_address address = true ->
    split_models model_list = [model] ->
    model <> "" ->
    dict_get model (MODEL_ENDPOINTS w) = None ->
    handle address model_list w
    = (Raised (BadModelNameError
                 ("Invalid model name(s): " ++ model ++ ". Must be one of "
                  ++ PyStr.join ", " (dict_keys (MODEL_ENDPOINTS w)))),
       w)
    /\ forall d, outward_status (BadModelNameError d) = Some 400%Z.
Proof.
  intros a ml m w Hv Hs Hn Hk. split; [|reflexivity].
  by_paths a ml w; try congruence.
  rewrite Hs in Hmany. simpl in Hmany. lia.
Qed.

(** X2: the handler raises a [BadModelNameError] exactly when the
    address is valid and [model_list] is not a single non-empty name
    that is a key of [MODEL_ENDPOINTS]. *)
Theorem bad_model_name_iff :
  forall (address model_list : string) (w : process),
    (exists d, fst (handle address model_list w) = Raised (BadModelNameError d))
    <-> is_valid_address address = true
        /\ ~ (exists model endpoint,
                 split_models model_list = [model]
                 /\ model <> ""
                 /\ dict_get model (MODEL_ENDPOINTS w) = Some endpoint).
Proof.
  intros a ml w. by_paths a ml w; simpl; split.
  - intros [d H]. discriminate.
  - intros [H _]. congruence.
  - intros _. split; [assumption|]. intros (m & e & Hs & _).
    rewrite Hs in Hmany. simpl in Hmany. lia.
  - intros _. now eexists.
  - intros _. split; [assumption|]. intros (m & e & Hs & Hn & _). congruence.
  - intros _. now eexists.
  - intros _. split; [assumption|]. intros (m & e & Hs & Hn & Hk). congruence.
  - intros _. now eexists.
  - intros [d H]. discriminate.
  - intros [_ H]. exfalso. apply H. now exists model, endpoint.
  - intros [d H]. by_try_paths Hrun; discriminate.
  - intros [_ H]. exfalso. apply H. now exists model, endpoint.
Qed.

(** X3: with a valid address, the "only one model name" error is raised
    exactly when [model_list] contains a comma - a trailing comma
    included: the number of names is one more than the number of
    commas. *)
Theorem comma_means_several_models :
  forall (address model_list : string) (w : process),
    is_valid_address address = true ->
    length (split_models model_list) = S (commas model_list)
    /\ (fst (handle address model_list w)
        = Raised (BadModelNameError
                    "Currently, only one model name can be provided at a time")
        <-> (1 <= commas model_list)%nat).
Proof.
  intros a ml w Hv. split; [apply split_models_length|].
  pose proof (split_models_length ml) as Hlen.
  by_paths a ml w; simpl; split; try congruence; try discriminate;
    try (intros _; reflexivity);
    try (intros _; lia);
    try (rewrite Hsplit in Hlen; simpl in Hlen; intro; lia).
  intro H. by_try_paths Hrun; discriminate.
Qed.

(** ** Errors, the log and the outbound call *)

(** X4: when the checksum of the address is defined, every exception the
    handler raises is one of its three API exceptions, answered with
    status 400 ([InvalidAddressException], [BadModelNameError]) or 500
    ([PassportAnalysisError]). *)
Theorem raised_errors_are_api_errors :
  forall (address model_list : string) (w : process) (e : exception),
    to_checksum_address address <> None ->
    fst (handle address model_list w) = Raised e ->
    (e = InvalidAddressException /\ outward_status e = Some 400%Z)
    \/ ((exists d, e = BadModelNameError d) /\ outward_status e = Some 400%Z)
    \/ (e = PassportAnalysisError /\ outward_status e = Some 500%Z).
Proof.
  intros a ml w err Hsum'. by_paths a ml w; simpl; intro H;
    try (injection H as <-).
  - left. now split.
  - right; left. split; [now eexists | reflexivity].
  - right; left. split; [now eexists | reflexivity].
  - right; left. split; [now eexists | reflexivity].
  - contradiction.
  - right; right.
    by_try_paths Hrun; simpl in H; try discriminate;
      injection H as <-; now split.
Qed.


(** X7: a request that fails with anything but [PassportAnalysisError]
    leaves the process state exactly as it was: no call, no output, no
    log entry. *)
Theorem validation_failure_leaves_no_trace :
  forall (address model_list : string) (w : process) (e : exception),
    fst (handle address model_list w) = Raised e ->
    e <> PassportAnalysisError ->
    snd (handle address model_list w) = w.
Proof.
  intros a ml w err. by_paths a ml w; simpl; try reflexivity.
  intros H Hne.
  by_try_paths Hrun; simpl in H; try discriminate;
    injection H as <-; contradiction.
Qed.

(** X8: a request with a valid address, a checksum and a single known
    model name makes exactly one call, whatever the upstream does with
    it: a POST to [MODEL_ENDPOINTS[model]] with the body
    [{"address": checksum}] and the two JSON headers.  A failed call is
    not repeated. *)
Theorem exactly_one_call :
  forall (address model_list model endpoint c : string) (w : process),
    is_valid_address address = true ->
    to_checksum_address address = Some c ->
    split_models model_list = [model] ->
    model <> "" ->
    dict_get model (MODEL_ENDPOINTS w) = Some endpoint ->
    outbound (snd (handle address model_list w))
    = (outbound w
       ++ [{| url := endpoint;
              json := PyDict [("address", PyStr c)];
              headers := [("Content-Type", "application/json");
                          ("Accept", "application/json")] |}])%list.
Proof.
  intros a ml m ep c0 w Hv Hc Hs Hn Hk.
  by_paths a ml w; try congruence.
  - rewrite Hs in Hmany. simpl in Hmany. lia.
  - assert (model = m) by congruence. subst model.
    assert (endpoint = ep) by congruence. subst endpoint.
    assert (c = c0) by congruence. subst c.
    by_try_paths Hrun; reflexivity.
Qed.

(** ** The score *)

Lemma module_endpoints_scored (settings : Settings) (model endpoint : string)
  (v : pyvalue) :
  dict_get model (module_endpoints settings) = Some endpoint ->
  model <> "" /\ exists model_results, scored model v = Some model_results.
Proof.
  unfold module_endpoints, scored. cbn [dict_get].
  rewrite (String.eqb_sym "ethereum"), (String.eqb_sym "nft"),
    (String.eqb_sym "zksync").
  intro H. split.
  - intros ->. simpl in H. discriminate.
  - destruct (String.eqb model "ethereum"); [now eexists|].
    destruct (String.eqb model "nft"); [now eexists|].
    destruct (String.eqb model "zksync"); [now eexists | discriminate].
Qed.

Lemma scored_reports (a model : string) (v : pyvalue)
  (model_results : PassportAnalysisDetailsModels) :
  scored model v = Some model_results ->
  In model schema_fields
  /\ reported_score model
       {| address := a; details := {| models := model_results |} |} = Some v
  /\ forall other,
       other <> model ->
       reported_score other
         {| address := a; details := {| models := model_results |} |} = None.
Proof.
  unfold scored, reported_score, schema_fields. cbn [details models].
  destruct (String.eqb model "ethereum") eqn:E1;
    [|destruct (String.eqb model "nft") eqn:E2;
      [|destruct (String.eqb model "zksync") eqn:E3; [|discriminate]]];
    intros [= <-]; cbn [ethereum nft zksync];
    match goal with
    | H : String.eqb model _ = true |- _ =>
        apply String.eqb_eq in H; subst model
    end;
    (split; [simpl; tauto|]); (split; [reflexivity|]);
    intros other Hother;
    destruct (String.eqb other "ethereum") eqn:O1;
    try (apply String.eqb_eq in O1; subst other; try contradiction);
    try reflexivity;
    destruct (String.eqb other "nft") eqn:O2;
    try (apply String.eqb_eq in O2; subst other; try contradiction);
    try reflexivity;
    destruct (String.eqb other "zksync") eqn:O3;
    try (apply String.eqb_eq in O3; subst other; try contradiction);
    reflexivity.
Qed.

(** X9: in a process whose endpoint map is the module's, a valid
    address and one of the module's model names, answered with a status
    outside 400..599 and a body holding [v] at
    [data.human_probability], give a successful response: it echoes the
    address, reports [v] unchanged - whatever kind of value it is - for
    the requested model, and reports nothing for the other models. *)
Theorem score_passed_through :
  forall (addr model_list model endpoint c : string) (settings : Settings)
         (w : process) (r : Response)
         (items data : list (string * pyvalue)) (v : pyvalue),
    is_valid_address addr = true ->
    to_checksum_address addr = Some c ->
    split_models model_list = [model] ->
    MODEL_ENDPOINTS w = module_endpoints settings ->
    dict_get model (module_endpoints settings) = Some endpoint ->
    upstream (model_request endpoint c) = Responded r ->
    ~ (400 <= http_status r < 600)%Z ->
    decoded r = Some (PyDict items) ->
    dict_get "data" items = Some (PyDict data) ->
    dict_get "human_probability" data = Some v ->
    exists response,
      fst (handle addr model_list w) = Returned response
      /\ address response = addr
      /\ reported_score model response = Some v
      /\ forall other,
           other <> model -> reported_score other response = None.
Proof.
  intros a ml m ep c0 settings w r0 items data v0
         Hv Hc Hs Hmap Hk Hup0 Hst Hbody0 Hdata Hprob.
  destruct (module_endpoints_scored settings m ep v0 Hk) as [Hn [o Ho]].
  rewrite <- Hmap in Hk.
  by_paths a ml w; try congruence.
  { rewrite Hs in Hmany. simpl in Hmany. lia. }
  assert (model = m) by congruence. subst model.
  assert (endpoint = ep) by congruence. subst endpoint.
  assert (c = c0) by congruence. subst c.
  assert (Hscore0 : score_of (PyDict items) = Returned v0).
  { unfold score_of. now rewrite Hdata, Hprob. }
  by_try_paths Hrun; try congruence;
    assert (r = r0) by congruence; subst r;
    try contradiction; try congruence;
    assert (body = PyDict items) by congruence; subst body;
    try congruence;
    assert (v = v0) by congruence; subst v; try congruence.
  destruct (scored_reports a m v0 model_results Hfield) as [_ [Hrep Hnone]].
  eexists. split; [reflexivity|]. split; [reflexivity|]. now split.
Qed.

(** X10: every successful response comes from the one path through the
    handler: the address is valid and has a checksum, [model_list] is a
    single name that is a key of [MODEL_ENDPOINTS] and a field of the
    response schema, the upstream answered the call with a status
    outside 400..599 and a JSON body, and the response echoes the
    address, reports for that model the value found at
    [data.human_probability] (0 where the key is absent) and nothing for
    any other model. *)
Theorem success_inversion :
  forall (addr model_list : string) (w : process)
         (response : PassportAnalysisResponse),
    fst (handle addr model_list w) = Returned response ->
    address response = addr
    /\ exists (model endpoint c : string) (r : Response) (body v : pyvalue),
         is_valid_address addr = true
         /\ to_checksum_address addr = Some c
         /\ split_models model_list = [model]
         /\ In model schema_fields
         /\ dict_get model (MODEL_ENDPOINTS w) = Some endpoint
         /\ upstream (model_request endpoint c) = Responded r
         /\ ~ (400 <= http_status r < 600)%Z
         /\ decoded r = Some body
         /\ score_of body = Returned v
         /\ reported_score model response = Some v
         /\ forall other,
              other <> model -> reported_score other response = None.
Proof.
  intros a ml w response0. by_paths a ml w; simpl; try discriminate.
  intro H. by_try_paths Hrun; simpl in H; try discriminate.
  injection H as <-.
  destruct (scored_reports a model v model_results Hfield)
    as [Hin [Hrep Hnone]].
  split; [reflexivity|].
  exists model, endpoint, c, r, body, v. repeat split; auto.
Qed.

Lemma score_of_malformed (body : pyvalue) :
  (forall items, body <> PyDict items)
  \/ (exists items other,
         body = PyDict items
         /\ dict_get "data" items = Some other
         /\ forall data, other <> PyDict data) ->
  exists msg, score_of body = Raised (AttributeError msg).
Proof.
  intros [Hbody | (items & other & -> & Hdata & Hother)].
  - destruct body; try (now eexists). now destruct (Hbody items).
  - unfold score_of. rewrite Hdata.
    destruct other; try (now eexists). now destruct (Hother items0).
Qed.

(** X11: a JSON body that is not an object, or whose ["data"] is
    present and not an object, makes the request fail with
    [PassportAnalysisError] although the upstream answered with a good
    status. *)
Theorem malformed_body_is_an_error :
  forall (address model_list model endpoint c : string) (w : process)
         (r : Response) (body : pyvalue),
    is_valid_address address = true ->
    to_checksum_address address = Some c ->
    split_models model_list = [model] ->
    model <> "" ->
    dict_get model (MODEL_ENDPOINTS w) = Some endpoint ->
    upstream (model_request endpoint c) = Responded r ->
    ~ (400 <= http_status r < 600)%Z ->
    decoded r = Some body ->
    (forall items, body <> PyDict items)
    \/ (exists items other,
           body = PyDict items
           /\ dict_get "data" items = Some other
           /\ forall data, other <> PyDict data) ->
    fst (handle address model_list w) = Raised PassportAnalysisError.
Proof.
  intros a ml m ep c0 w r0 body0 Hv Hc Hs Hn Hk Hup0 Hst Hbody0 Hshape.
  destruct (score_of_malformed body0 Hshape) as [msg0 Hscore0].
  by_paths a ml w; try congruence.
  { rewrite Hs in Hmany. simpl in Hmany. lia. }
  assert (model = m) by congruence. subst model.
  assert (endpoint = ep) by congruence. subst endpoint.
  assert (c = c0) by congruence. subst c.
  by_try_paths Hrun; try reflexivity.
  assert (r = r0) by congruence. subst r.
  assert (body = body0) by congruence. subst body. congruence.
Qed.

(** X12: a decoded body that is no [str], from an answer with a status
    outside 400..599, is printed to standard output before it is
    inspected: whether or not the request then succeeds, standard output
    grows by the line ["Response body:", body]. *)
Theorem response_body_printed :
  forall (address model_list model endpoint c : string) (w : process)
         (r : Response) (body : pyvalue),
    is_valid_address address = true ->
    to_checksum_address address = Some c ->
    split_models model_list = [model] ->
    model <> "" ->
    dict_get model (MODEL_ENDPOINTS w) = Some endpoint ->
    upstream (model_request endpoint c) = Responded r ->
    ~ (400 <= http_status r < 600)%Z ->
    decoded r = Some body ->
    (forall s, body <> PyStr s) ->
    stdout (snd (handle address model_list w))
    = (stdout w ++ [[PyStr "Response body:"; body]])%list.
Proof.
  intros a ml m ep c0 w r0 body0 Hv Hc Hs Hn Hk Hup0 Hst Hbody0 _.
  by_paths a ml w; try congruence.
  { rewrite Hs in Hmany. simpl in Hmany. lia. }
  assert (model = m) by congruence. subst model.
  assert (endpoint = ep) by congruence. subst endpoint.
  assert (c = c0) by congruence. subst c.
  by_try_paths Hrun; try congruence;
    assert (r = r0) by congruence; subst r;
    try contradiction; try congruence;
    assert (body = body0) by congruence; subst body; reflexivity.
Qed.

(** ** Requests in sequence *)

Lemma at_most_one_call (a model_list : string) (w : process) :
  (length (outbound (snd (handle a model_list w)))
   <= S (length (outbound w)))%nat.
Proof.
  by_paths a model_list w; simpl; try lia.
  by_try_paths Hrun; simpl; rewrite length_app; simpl; lia.
Qed.

(** X13: a worker that serves any list of requests one after the other
    answers each of them as it would have answered it first, ends with
    [MODEL_ENDPOINTS] unchanged, and has made at most one call per
    request. *)
Theorem requests_are_independent :
  forall (Request : Type) (requests : list (Request * string * string))
         (w : process),
    fst (serve_requests is_valid_address to_checksum_address upstream
                        requests w)
    = map (fun request =>
             fst (get_analysis is_valid_address to_checksum_address upstream
                               (fst (fst request)) (snd (fst request))
                               (snd request) w))
          requests
    /\ MODEL_ENDPOINTS
         (snd (serve_requests is_valid_address to_checksum_address upstream
                              requests w))
       = MODEL_ENDPOINTS w
    /\ (length (outbound
                  (snd (serve_requests is_valid_address to_checksum_address
                                       upstream requests w)))
        <= length (outbound w) + length requests)%nat.
Proof.
  intros Request requests.
  induction requests as [|[[request a] ml] rest IH]; intro w.
  - simpl. repeat split; lia.
  - cbn [serve_requests]. unfold get_analysis in IH |- *.
    pose proof (confined_handle is_valid_address to_checksum_address upstream
                  a ml w w eq_refl) as [_ Hkeep].
    pose proof (at_most_one_call a ml w) as Hcall.
    destruct (handle a ml w) as [result w'] eqn:Hfirst. simpl in Hkeep, Hcall.
    destruct (IH w') as [Hresults [Hmap Hcalls]].
    destruct (serve_requests _ _ _ rest w') as [results w'']. simpl in *.
    repeat split.
    + f_equal.
      * now rewrite Hfirst.
      * rewrite Hresults. apply map_ext. intros [[request' a'] ml'].
        simpl.
        now destruct (confined_handle is_valid_address to_checksum_address
                        upstream a' ml' w' w Hkeep).
    + congruence.
    + lia.
Qed.

(** ** White space around the model names *)

Lemma lstrip_blank_app (pre t : string) :
  blank pre = true -> PyStr.lstrip (pre ++ t) = PyStr.lstrip t.
Proof.
  induction pre as [|ch pre IH]; simpl; [reflexivity|].
  unfold blank; simpl. intro H. apply andb_true_iff in H as [Hc Hpre].
  rewrite Hc. now apply IH.
Qed.

Lemma rstrip_blank (post : string) :
  blank post = true -> PyStr.rstrip post = "".
Proof.
  induction post as [|ch post IH]; simpl; [reflexivity|].
  unfold blank; simpl. intro H. apply andb_true_iff in H as [Hc Hpost].
  rewrite (IH Hpost). now rewrite Hc.
Qed.

Lemma rstrip_app_blank (t post : string) :
  blank post = true -> PyStr.rstrip (t ++ post) = PyStr.rstrip t.
Proof.
  intro H. induction t as [|ch t IH]; simpl.
  - now apply rstrip_blank.
  - now rewrite IH.
Qed.

Lemma strip_blank_app (pre t : string) :
  blank pre = true -> PyStr.strip (pre ++ t) = PyStr.strip t.
Proof. intro H. unfold PyStr.strip. now rewrite lstrip_blank_app. Qed.

Lemma strip_app_blank (t post : string) :
  blank post = true -> PyStr.strip (t ++ post) = PyStr.strip t.
Proof.
  intro H. unfold PyStr.strip. induction t as [|ch t IH]; simpl.
  - assert (Hl : blank (PyStr.lstrip post) = true).
    { clear -H. induction post as [|ch post IH]; simpl; [reflexivity|].
      unfold blank in H; simpl in H. apply andb_true_iff in H as [Hc Hpost].
      rewrite Hc. now apply IH. }
    now apply rstrip_blank.
  - destruct (PyStr.isspace ch); [exact IH|].
    change (String ch (t ++ post)) with (String ch t ++ post).
    now apply rstrip_app_blank.
Qed.

Lemma split_blank (post : string) :
  blank post = true -> PyStr.split "," post = [post].
Proof.
  induction post as [|ch post IH]; simpl; [reflexivity|].
  unfold blank; simpl. intro H. apply andb_true_iff in H as [Hc Hpost].
  destruct (Ascii.eqb ch ",") eqn:E.
  - apply Ascii.eqb_eq in E. subst ch. discriminate.
  - now rewrite (IH Hpost).
Qed.

Lemma split_blank_app (pre s : string) :
  blank pre = true ->
  map PyStr.strip (PyStr.split "," (pre ++ s))
  = map PyStr.strip (PyStr.split "," s).
Proof.
  intro H.
  assert (Hsplit : exists piece rest,
             PyStr.split "," s = piece :: rest
             /\ PyStr.split "," (pre ++ s) = (pre ++ piece) :: rest).
  { induction pre as [|ch pre IH]; simpl.
    - destruct (PyStr.split "," s) as [|piece rest] eqn:E.
      + now destruct (PyStr.split_nonempty _ _ E).
      + now exists piece, rest.
    - unfold blank in H; simpl in H. apply andb_true_iff in H as [Hc Hpre].
      destruct (IH Hpre) as (piece & rest & E1 & E2).
      exists piece, rest. split; [exact E1|].
      destruct (Ascii.eqb ch ",") eqn:E.
      + apply Ascii.eqb_eq in E. subst ch. discriminate.
      + now rewrite E2. }
  destruct Hsplit as (piece & rest & -> & ->). simpl.
  now rewrite strip_blank_app.
Qed.

Lemma split_app_blank (s post : string) :
  blank post = true ->
  map PyStr.strip (PyStr.split "," (s ++ post))
  = map PyStr.strip (PyStr.split "," s).
Proof.
  intro H.
  assert (Hsplit : exists init piece,
             PyStr.split "," s = (init ++ [piece])%list
             /\ PyStr.split "," (s ++ post) = (init ++ [(piece ++ post)%string])%list).
  { induction s as [|ch s IH]; simpl.
    - exists [], "". split; [reflexivity|]. now apply split_blank.
    - destruct IH as (init & piece & E1 & E2). rewrite E1, E2.
      destruct (Ascii.eqb ch ",").
      + now exists ("" :: init), piece.
      + destruct init as [|first init]; simpl.
        * now exists [], (String ch piece).
        * now exists (String ch first :: init), piece. }
  destruct Hsplit as (init & piece & -> & ->).
  rewrite !map_app. simpl. now rewrite strip_app_blank.
Qed.

(** X14: white space before and after [model_list] is ignored: padded
    on either side with any white space, a [model_list] is parsed into
    the same names and the request is handled in the same way. *)
Theorem surrounding_whitespace_ignored :
  forall (address pre model_list post : string) (w : process),
    blank pre = true ->
    blank post = true ->
    split_models (pre ++ model_list ++ post) = split_models model_list
    /\ handle address (pre ++ model_list ++ post) w
       = handle address model_list w.
Proof.
  intros a pre ml post w Hpre Hpost.
  assert (E : split_models (pre ++ ml ++ post) = split_models ml).
  { unfold split_models. now rewrite split_blank_app, split_app_blank. }
  split; [exact E|]. unfold handle_get_analysis. now rewrite E.
Qed.

(** ** Zero and absent scores *)

(** The handler on an answer with a status outside 400..599 and a JSON
    body, for any upstream. *)
Lemma answered_run (up : post_request -> post_result)
  (a model_list model endpoint c : string) (w : process) (r : Response)
  (body : pyvalue) :
  is_valid_address a = true ->
  to_checksum_address a = Some c ->
  split_models model_list = [model] ->
  model <> "" ->
  dict_get model (MODEL_ENDPOINTS w) = Some endpoint ->
  up (model_request endpoint c) = Responded r ->
  ~ (400 <= http_status r < 600)%Z ->
  decoded r = Some body ->
  fst (handle_get_analysis is_valid_address to_checksum_address up
                           a model_list w)
  = match score_of body with
    | Raised _ => Raised PassportAnalysisError
    | Returned v =>
        match scored model v with
        | Some model_results =>
            Returned {| address := a;
                        details := {| models := model_results |} |}
        | None => Raised PassportAnalysisError
        end
    end.
Proof.
  intros Hv Hc Hs Hn Hk Hup Hst Hbody.
  rewrite (handle_dispatch _ _ _ _ _ _ _ _ _ Hv Hc Hs Hn Hk).
  unfold try_except.
  rewrite (analyse_answered _ _ _ _ _ _ _ Hk Hup).
  unfold raise_for_status.
  destruct (status_test r) as [[_ Hbad] | [-> _]]; [contradiction|].
  rewrite bind_ret. unfold response_json. rewrite Hbody, bind_ret.
  unfold bind at 1. cbn [print]. rewrite score_of_run.
  destruct (score_of body) as [v|e]; [|reflexivity].
  unfold bind at 1. rewrite set_scores_run.
  destruct (scored model v); reflexivity.
Qed.

(** X15: the caller cannot tell an answer without a score from an
    answer with the score 0: a body in which ["data"] or
    ["human_probability"] is absent and a body holding the integer 0 at
    [data.human_probability] lead to the same outcome. *)
Theorem absent_score_reads_as_zero :
  forall (upstream' : post_request -> post_result)
         (address model_list model endpoint c : string) (w : process)
         (r r' : Response) (body : pyvalue)
         (items data : list (string * pyvalue)),
    is_valid_address address = true ->
    to_checksum_address address = Some c ->
    split_models model_list = [model] ->
    model <> "" ->
    dict_get model (MODEL_ENDPOINTS w) = Some endpoint ->
    upstream (model_request endpoint c) = Responded r ->
    ~ (400 <= http_status r < 600)%Z ->
    decoded r = Some body ->
    human_probability_absent body ->
    upstream' (model_request endpoint c) = Responded r' ->
    ~ (400 <= http_status r' < 600)%Z ->
    decoded r' = Some (PyDict items) ->
    dict_get "data" items = Some (PyDict data) ->
    dict_get "human_probability" data = Some (PyInt 0) ->
    fst (handle address model_list w)
    = fst (handle_get_analysis is_valid_address to_checksum_address upstream'
                               address model_list w).
Proof.
  intros up a ml m ep c0 w r0 r1 body0 items data
         Hv Hc Hs Hn Hk Hup0 Hst0 Hbody0 Habsent Hup1 Hst1 Hbody1 Hdata Hprob.
  rewrite (answered_run upstream a ml m ep c0 w r0 body0) by assumption.
  rewrite (answered_run up a ml m ep c0 w r1 (PyDict items)) by assumption.
  assert (E0 : score_of body0 = Returned (PyInt 0)).
  { destruct Habsent as [xs [-> [H | [d [H H']]]]]; unfold score_of;
      rewrite H; [reflexivity | now rewrite H']. }
  assert (E1 : score_of (PyDict items) = Returned (PyInt 0)).
  { unfold score_of. now rewrite Hdata, Hprob. }
  now rewrite E0, E1.
Qed.

End Coverage.

(** * The sample deployment, continued *)

(** A 200 answer with the score 0. *)
Definition human_probability_0 : post_request -> post_result :=
  answering 200
    ("{" ++ quoted "data" ++ ": {" ++ quoted "human_probability" ++ ": 0}}")
    (Some (PyDict [("data", PyDict [("human_probability", PyInt 0)])])).

(** The call of the sample deployment for the model [ethereum]. *)
Definition ethereum_request : post_request :=
  model_request "http://models.internal/ethereum" checksummed_address.

Lemma unknown_model_rejected_witness :
  serve human_probability_42 checksummed_address "bogus"
        (start sample_settings)
  = (Raised (BadModelNameError
               "Invalid model name(s): bogus. Must be one of ethereum, nft, zksync"),
     start sample_settings).
Proof.
  apply (unknown_model_rejected
           Registry.is_valid_address EthUtils.to_checksum_address
           human_probability_42 checksummed_address "bogus" "bogus"
           (start sample_settings)).
  - vm_compute; reflexivity.
  - reflexivity.
  - discriminate.
  - reflexivity.
Defined.

Lemma comma_means_several_models_witness :
  (1 <= commas "ethereum,")%nat
  /\ fst (serve human_probability_42 checksummed_address "ethereum,"
                (start sample_settings))
     = Raised (BadModelNameError
                 "Currently, only one model name can be provided at a time").
Proof.
  assert (Hcomma : (1 <= commas "ethereum,")%nat) by (vm_compute; lia).
  split; [exact Hcomma|].
  apply (comma_means_several_models
           Registry.is_valid_address EthUtils.to_checksum_address
           human_probability_42 checksummed_address "ethereum,"
           (start sample_settings)).
  - vm_compute; reflexivity.
  - exact Hcomma.
Defined.

Lemma raised_errors_are_api_errors_witness :
  outward_status PassportAnalysisError = Some 400%Z
  \/ outward_status PassportAnalysisError = Some 500%Z.
Proof.
  destruct (raised_errors_are_api_errors
              Registry.is_valid_address EthUtils.to_checksum_address
              service_unavailable lowercase_address "ethereum"
              (start sample_settings) PassportAnalysisError)
    as [[_ H] | [[_ H] | [_ H]]].
  - vm_compute. discriminate.
  - vm_compute. reflexivity.
  - now left.
  - now left.
  - now right.
Defined.

Lemma validation_failure_leaves_no_trace_witness :
  snd (serve human_probability_42 checksummed_address "ethereum,nft"
             (start sample_settings))
  = start sample_settings.
Proof.
  apply (validation_failure_leaves_no_trace
           Registry.is_valid_address EthUtils.to_checksum_address
           human_probability_42 checksummed_address "ethereum,nft"
           (start sample_settings)
           (BadModelNameError
              "Currently, only one model name can be provided at a time")).
  - vm_compute; reflexivity.
  - discriminate.
Defined.

Lemma exactly_one_call_witness :
  outbound (snd (serve unreachable lowercase_address "ethereum"
                       (start sample_settings)))
  = [ethereum_request].
Proof.
  apply (exactly_one_call
           Registry.is_valid_address EthUtils.to_checksum_address
           unreachable lowercase_address "ethereum" "ethereum"
           "http://models.internal/ethereum" checksummed_address
           (start sample_settings)).
  - vm_compute; reflexivity.
  - vm_compute; reflexivity.
  - reflexivity.
  - discriminate.
  - reflexivity.
Defined.

Lemma score_passed_through_witness :
  exists response,
    fst (serve human_probability_42 lowercase_address "nft"
               (start sample_settings)) = Returned response
    /\ address response = lowercase_address
    /\ reported_score "nft" response = Some (PyInt 42)
    /\ forall other, other <> "nft" -> reported_score other response = None.
Proof.
  apply (score_passed_through
           Registry.is_valid_address EthUtils.to_checksum_address
           human_probability_42 lowercase_address "nft" "nft"
           "http://models.internal/nft" checksummed_address sample_settings
           (start sample_settings)
           {| http_status := 200;
              text := "{" ++ quoted "data" ++ ": {"
                      ++ quoted "human_probability" ++ ": 42}}";
              decoded :=
                Some (PyDict [("data",
                               PyDict [("human_probability", PyInt 42)])]) |}
           [("data", PyDict [("human_probability", PyInt 42)])]
           [("human_probability", PyInt 42)] (PyInt 42)).
  - vm_compute; reflexivity.
  - vm_compute; reflexivity.
  - reflexivity.
  - reflexivity.
  - reflexivity.
  - reflexivity.
  - simpl. lia.
  - reflexivity.
  - reflexivity.
  - reflexivity.
Defined.

Lemma success_inversion_witness :
  exists (model endpoint c : string) (r : Response) (body v : pyvalue),
    Registry.is_valid_address lowercase_address = true
    /\ EthUtils.to_checksum_address lowercase_address = Some c
    /\ split_models " zksync" = [model]
    /\ In model schema_fields
    /\ dict_get model (MODEL_ENDPOINTS (start sample_settings)) = Some endpoint
    /\ human_probability_42 (model_request endpoint c) = Responded r
    /\ ~ (400 <= http_status r < 600)%Z
    /\ decoded r = Some body
    /\ score_of body = Returned v
    /\ reported_score model
         {| address := lowercase_address;
            details :=
              {| models :=
                   {| ethereum := None; nft := None;
                      zksync := Some (PyDict [("score", PyInt 42)]) |} |} |}
       = Some v
    /\ forall other,
         other <> model ->
         reported_score other
           {| address := lowercase_address;
              details :=
                {| models :=
                     {| ethereum := None; nft := None;
                        zksync := Some (PyDict [("score", PyInt 42)]) |} |} |}
         = None.
Proof.
  apply (success_inversion
           Registry.is_valid_address EthUtils.to_checksum_address
           human_probability_42 lowercase_address " zksync"
           (start sample_settings)
           {| address := lowercase_address;
              details :=
                {| models :=
                     {| ethereum := None; nft := None;
                        zksync := Some (PyDict [("score", PyInt 42)]) |} |} |}).
  vm_compute; reflexivity.
Defined.

Lemma malformed_body_is_an_error_witness :
  fst (serve null_data lowercase_address "ethereum" (start sample_settings))
  = Raised PassportAnalysisError.
Proof.
  apply (malformed_body_is_an_error
           Registry.is_valid_address EthUtils.to_checksum_address
           null_data lowercase_address "ethereum" "ethereum"
           "http://models.internal/ethereum" checksummed_address
           (start sample_settings)
           {| http_status := 200;
              text := "{" ++ quoted "data" ++ ": null}";
              decoded := Some (PyDict [("data", PyNone)]) |}
           (PyDict [("data", PyNone)])).
  - vm_compute; reflexivity.
  - vm_compute; reflexivity.
  - reflexivity.
  - discriminate.
  - reflexivity.
  - reflexivity.
  - simpl. lia.
  - reflexivity.
  - right. exists [("data", PyNone)], PyNone.
    split; [reflexivity|]. split; [reflexivity | discriminate].
Defined.

Lemma response_body_printed_witness :
  stdout (snd (serve null_data lowercase_address "ethereum"
                     (start sample_settings)))
  = [[PyStr "Response body:"; PyDict [("data", PyNone)]]].
Proof.
  apply (response_body_printed
           Registry.is_valid_address EthUtils.to_checksum_address
           null_data lowercase_address "ethereum" "ethereum"
           "http://models.internal/ethereum" checksummed_address
           (start sample_settings)
           {| http_status := 200;
              text := "{" ++ quoted "data" ++ ": null}";
              decoded := Some (PyDict [("data", PyNone)]) |}
           (PyDict [("data", PyNone)])).
  - vm_compute; reflexivity.
  - vm_compute; reflexivity.
  - reflexivity.
  - discriminate.
  - reflexivity.
  - reflexivity.
  - simpl. lia.
  - reflexivity.
  - discriminate.
Defined.

Lemma surrounding_whitespace_ignored_witness :
  split_models "  ethereum " = split_models "ethereum"
  /\ serve human_probability_42 checksummed_address "  ethereum "
           (start sample_settings)
     = serve human_probability_42 checksummed_address "ethereum"
             (start sample_settings).
Proof.
  apply (surrounding_whitespace_ignored
           Registry.is_valid_address EthUtils.to_checksum_address
           human_probability_42 checksummed_address "  " "ethereum" " "
           (start sample_settings)); reflexivity.
Defined.

Lemma absent_score_reads_as_zero_witness :
  fst (serve empty_object lowercase_address "ethereum" (start sample_settings))
  = fst (serve human_probability_0 lowercase_address "ethereum"
               (start sample_settings)).
Proof.
  apply (absent_score_reads_as_zero
           Registry.is_valid_address EthUtils.to_checksum_address
           empty_object human_probability_0
           lowercase_address "ethereum" "ethereum"
           "http://models.internal/ethereum" checksummed_address
           (start sample_settings)
           {| http_status := 200; text := "{}"; decoded := Some (PyDict []) |}
           {| http_status := 200;
              text := "{" ++ quoted "data" ++ ": {"
                      ++ quoted "human_probability" ++ ": 0}}";
              decoded :=
                Some (PyDict [("data",
                               PyDict [("human_probability", PyInt 0)])]) |}
           (PyDict [])
           [("data", PyDict [("human_probability", PyInt 0)])]
           [("human_probability", PyInt 0)]).
  - vm_compute; reflexivity.
  - vm_compute; reflexivity.
  - reflexivity.
  - discriminate.
  - reflexivity.
  - reflexivity.
  - simpl. lia.
  - reflexivity.
  - exists []. split; [reflexivity | now left].
  - reflexivity.
  - simpl. lia.
  - reflexivity.
  - reflexivity.
  - reflexivity.
Defined.

Example two_requests_in_sequence :
  fst (serve_requests Registry.is_valid_address EthUtils.to_checksum_address
                      service_unavailable
                      [(tt, lowercase_address, "ethereum");
                       (tt, "not-an-address", "nft")]
                      (start sample_settings))
  = [Raised PassportAnalysisError; Raised InvalidAddressException].
Proof. vm_compute. reflexivity. Qed.

(** A 300 answer with a score in its body. *)
Definition multiple_choices : post_request -> post_result :=
  answering 300
    ("{" ++ quoted "data" ++ ": {" ++ quoted "human_probability" ++ ": 42}}")
    (Some (PyDict [("data", PyDict [("human_probability", PyInt 42)])])).

(** C5 fails as stated: the status 300 is no success status, yet
    [raise_for_status] lets it pass and the request succeeds with the
    score of the body. *)
Lemma status_300_is_not_a_failure :
  (forall request,
      exists r,
        multiple_choices request = Responded r
        /\ ~ (200 <= http_status r < 300)%Z)
  /\ exists response,
       fst (serve multiple_choices lowercase_address "ethereum"
                  (start sample_settings)) = Returned response
       /\ reported_score "ethereum" response = Some (PyInt 42)
       /\ fst (serve multiple_choices lowercase_address "ethereum"
                     (start sample_settings))
          <> Raised PassportAnalysisError.
Proof.
  split.
  - intro request. eexists. split; [reflexivity|]. simpl. lia.
  - eexists. split; [vm_compute; reflexivity|].
    split; [reflexivity|]. vm_compute. discriminate.
Qed.

(** The same holds for the status 600, above the range
    [raise_for_status] looks at. *)
Example status_600_is_not_a_failure :
  exists response,
    fst (serve (answering 600 "{}" (Some (PyDict [])))
               lowercase_address "ethereum" (start sample_settings))
    = Returned response
    /\ reported_score "ethereum" response = Some (PyInt 0).
Proof. eexists. split; [vm_compute; reflexivity | reflexivity]. Qed.

(** C6 fails as stated: with an invalid address, the empty [model_list]
    and the one of a single space end in [InvalidAddressException], not
    in a [BadModelNameError]. *)
Lemma blank_model_list_with_invalid_address :
  Registry.is_valid_address "not-an-address" = false
  /\ fst (serve human_probability_42 "not-an-address" ""
                (start sample_settings)) = Raised InvalidAddressException
  /\ fst (serve human_probability_42 "not-an-address" " "
                (start sample_settings)) = Raised InvalidAddressException
  /\ forall d,
       fst (serve human_probability_42 "not-an-address" ""
                  (start sample_settings)) <> Raised (BadModelNameError d)
       /\ fst (serve human_probability_42 "not-an-address" " "
                     (start sample_settings)) <> Raised (BadModelNameError d).
Proof.
  repeat split; try (vm_compute; reflexivity); vm_compute; discriminate.
Qed.

(** C9 fails as stated: with an invalid address, a [model_list] of one
    comma - two names, both empty - ends in [InvalidAddressException],
    not in the [BadModelNameError] for several model names. *)
Lemma comma_with_invalid_address :
  Registry.is_valid_address "not-an-address" = false
  /\ split_models "," = [""; ""]
  /\ fst (serve human_probability_42 "not-an-address" ","
                (start sample_settings)) = Raised InvalidAddressException
  /\ fst (serve human_probability_42 "not-an-address" ","
                (start sample_settings))
     <> Raised (BadModelNameError
                  "Currently, only one model name can be provided at a time").
Proof.
  repeat split; try (vm_compute; reflexivity). vm_compute. discriminate.
Qed.
